(** * zabbix_action: the reconciliation of a Zabbix action

    A shallow embedding of [lib/ansible/modules/monitoring/zabbix/zabbix_action.py]:
    the class [Action] (existence lookup, create, delete, interface merge,
    update) and the dispatch of [main], with the remote API as an
    environment and the calls issued to it as a trace. *)

From Stdlib Require Import String Ascii List ZArith Bool Lia DecimalString.
Import ListNotations.
Open Scope string_scope.
Open Scope Z_scope.
Set Warnings "-register-all".

(** ** Python values

    The values the module handles come from JSON (the remote API) and from
    YAML (the task's parameters): None, booleans, integers, strings, lists
    and dicts keyed by strings.  Floats are not part of the model. *)

Inductive value : Type :=
| VNone
| VBool (b : bool)
| VInt (z : Z)
| VStr (s : string)
| VList (l : list value)
| VDict (d : list (string * value)).

(** A dict is an association list in insertion order; a Python dict holds
    each key once, which [dict_wf] states. *)
Definition dict := list (string * value).

Fixpoint dict_get (k : string) (d : dict) : option value :=
  match d with
  | [] => None
  | (k', v) :: rest => if String.eqb k k' then Some v else dict_get k rest
  end.

(** [k in d] *)
Definition dict_mem (k : string) (d : dict) : bool :=
  match dict_get k d with Some _ => true | None => false end.

(** [d[k] = v]: an existing key keeps its place, a new one goes last. *)
Fixpoint dict_set (k : string) (v : value) (d : dict) : dict :=
  match d with
  | [] => [(k, v)]
  | (k', v') :: rest =>
      if String.eqb k k' then (k', v) :: rest else (k', v') :: dict_set k v rest
  end.

(** [d.pop(k)] for a key that [d] holds. *)
Fixpoint dict_pop (k : string) (d : dict) : dict :=
  match d with
  | [] => []
  | (k', v') :: rest =>
      if String.eqb k k' then rest else (k', v') :: dict_pop k rest
  end.

(** [d.update(other)] for a dict [other]: its items in order. *)
Definition dict_update (d other : dict) : dict :=
  fold_left (fun acc kv => dict_set (fst kv) (snd kv) acc) other d.

Fixpoint dict_wf (d : dict) : bool :=
  match d with
  | [] => true
  | (k, _) :: rest => negb (dict_mem k rest) && dict_wf rest
  end.

(** Truth value testing: None, False, 0 and the empty string, list and dict
    are false. *)
Definition truthy (v : value) : bool :=
  match v with
  | VNone => false
  | VBool b => b
  | VInt z => negb (z =? 0)
  | VStr s => negb (String.eqb s EmptyString)
  | VList l => match l with [] => false | _ => true end
  | VDict d => match d with [] => false | _ => true end
  end.

(** [a == b].  A bool compares as the integer 0 or 1; lists compare
    element by element; two dicts are equal when they have the same number
    of keys and every key of the first is a key of the second with an equal
    value; values of different kinds are unequal. *)
Fixpoint py_eq (a b : value) {struct a} : bool :=
  match a, b with
  | VNone, VNone => true
  | VBool x, VBool y => Bool.eqb x y
  | VBool x, VInt y => (if x then 1 else 0) =? y
  | VInt x, VBool y => x =? (if y then 1 else 0)
  | VInt x, VInt y => x =? y
  | VStr x, VStr y => String.eqb x y
  | VList la, VList lb =>
      (fix eq_list (la lb : list value) {struct la} : bool :=
         match la, lb with
         | [], [] => true
         | x :: xs, y :: ys => py_eq x y && eq_list xs ys
         | _, _ => false
         end) la lb
  | VDict da, VDict db =>
      Nat.eqb (length da) (length db) &&
      forallb (fun '(k, v) =>
                 match dict_get k db with
                 | Some v' => py_eq v v'
                 | None => false
                 end) da
  | _, _ => false
  end.

(** [a != b] *)
Definition py_ne (a b : value) : bool := negb (py_eq a b).

(** ** [str] and [repr]

    [str] of an integer is its decimal writing, of a string the string
    itself, of a list or a dict its [repr].  [repr] of a string follows
    CPython 3: single quotes unless the string holds a single quote and no
    double quote, a backslash before the quote character and the backslash,
    [\t], [\n], [\r], and [\xhh] for the other control characters; bytes
    from 128 on (UTF-8 text) are kept. *)

Definition squote : ascii := ascii_of_nat 39.
Definition dquote : ascii := ascii_of_nat 34.
Definition backslash : ascii := ascii_of_nat 92.

Fixpoint has_char (c : ascii) (s : string) : bool :=
  match s with
  | EmptyString => false
  | String c' rest => Ascii.eqb c c' || has_char c rest
  end.

Definition hex_digit (n : nat) : ascii :=
  if Nat.ltb n 10 then ascii_of_nat (48 + n) else ascii_of_nat (87 + n).

Definition escape_char (quote c : ascii) : string :=
  let n := nat_of_ascii c in
  if Ascii.eqb c quote || Ascii.eqb c backslash then String backslash (String c EmptyString)
  else if Nat.eqb n 9 then String backslash "t"
  else if Nat.eqb n 10 then String backslash "n"
  else if Nat.eqb n 13 then String backslash "r"
  else if Nat.ltb n 32 || Nat.eqb n 127 then
    String backslash (String "x" (String (hex_digit (Nat.div n 16))
                                    (String (hex_digit (Nat.modulo n 16)) EmptyString)))
  else String c EmptyString.

Fixpoint escape (quote : ascii) (s : string) : string :=
  match s with
  | EmptyString => EmptyString
  | String c rest => escape_char quote c ++ escape quote rest
  end.

Definition repr_str (s : string) : string :=
  let quote := if has_char squote s && negb (has_char dquote s) then dquote else squote in
  String quote (escape quote s ++ String quote EmptyString).

Definition str_int (z : Z) : string := NilZero.string_of_int (Z.to_int z).

Fixpoint py_repr (v : value) : string :=
  match v with
  | VNone => "None"
  | VBool true => "True"
  | VBool false => "False"
  | VInt z => str_int z
  | VStr s => repr_str s
  | VList l =>
      "[" ++ (fix elems (l : list value) : string :=
                match l with
                | [] => EmptyString
                | [x] => py_repr x
                | x :: rest => py_repr x ++ ", " ++ elems rest
                end) l ++ "]"
  | VDict d =>
      "{" ++ (fix items (d : list (string * value)) : string :=
                match d with
                | [] => EmptyString
                | [(k, x)] => repr_str k ++ ": " ++ py_repr x
                | (k, x) :: rest => repr_str k ++ ": " ++ py_repr x ++ ", " ++ items rest
                end) d ++ "}"
  end.

(** [str(v)], also what [%s] formats. *)
Definition py_str (v : value) : string :=
  match v with
  | VStr s => s
  | _ => py_repr v
  end.

(** ** Exceptions

    Every exception the module can meet is a subclass of [Exception]: the
    ones Python raises itself and the ones the remote client raises, which
    carry the remote side's error text. *)

Inductive exn : Type :=
| KeyError (key : string)
| TypeError (text : string)
| AttributeError (text : string)
| ValueError (text : string)
| ZabbixAPIException (text : string).

(** [str(e)]: the text of the exception; of a KeyError the repr of the key. *)
Definition exn_str (e : exn) : string :=
  match e with
  | KeyError k => repr_str k
  | TypeError t | AttributeError t | ValueError t | ZabbixAPIException t => t
  end.

(** A pure computation that may raise. *)
Inductive result (A : Type) : Type :=
| Ok (a : A)
| Err (e : exn).
Arguments Ok {A} a.
Arguments Err {A} e.

Definition rbind {A B : Type} (r : result A) (f : A -> result B) : result B :=
  match r with
  | Ok a => f a
  | Err e => Err e
  end.

(** [d[k]] *)
Definition getitem (d : dict) (k : string) : result value :=
  match dict_get k d with
  | Some v => Ok v
  | None => Err (KeyError k)
  end.

Definition type_name (v : value) : string :=
  match v with
  | VNone => "NoneType"
  | VBool _ => "bool"
  | VInt _ => "int"
  | VStr _ => "str"
  | VList _ => "list"
  | VDict _ => "dict"
  end.

(** [len(v)] *)
Definition py_len (v : value) : result nat :=
  match v with
  | VStr s => Ok (String.length s)
  | VList l => Ok (length l)
  | VDict d => Ok (length d)
  | _ => Err (TypeError ("object of type '" ++ type_name v ++ "' has no len()"))
  end.


Declare Scope result_scope.
Delimit Scope result_scope with result.
Notation "x <- r ;; k" := (rbind r (fun x => k))
  (at level 61, r at next level, right associativity) : result_scope.

(** ** The remote client and the module's effects

    [zapi.action.get/create/update/delete] are synchronous calls that
    return a reply or raise.  One run of the module issues one lookup and
    at most one mutating call, so the client is an environment of replies
    and the run records the calls it issued. *)

Record ZabbixAPI : Type := {
  action_get : string -> result (list dict);
  action_create : dict -> result value;
  action_update : dict -> result value;
  action_delete : list value -> result value
}.

Inductive call : Type :=
| Get (name : string)
| Create (parameters : dict)
| Update (parameters : dict)
| Delete (ids : list value).

Definition is_mutating (c : call) : bool :=
  match c with
  | Get _ => false
  | _ => true
  end.

(** What [AnsibleModule] reports: [exit_json(changed=..., result=...)] or
    [fail_json(msg=...)]. *)
Inductive outcome : Type :=
| ExitJson (changed : bool) (result : option string)
| FailJson (msg : string).

(** How a piece of code ends: normally, with an exception, or with the
    [SystemExit] that [exit_json] and [fail_json] raise.  [SystemExit] is
    not an [Exception], so [except Exception] lets it through. *)
Inductive completion (A : Type) : Type :=
| Normal (a : A)
| Raised (e : exn)
| SysExit (o : outcome).
Arguments Normal {A} a.
Arguments Raised {A} e.
Arguments SysExit {A} o.

Definition M (A : Type) : Type := list call -> completion A * list call.

Definition ret {A : Type} (a : A) : M A := fun t => (Normal a, t).

Definition bind {A B : Type} (m : M A) (f : A -> M B) : M B :=
  fun t =>
    match m t with
    | (Normal a, t') => f a t'
    | (Raised e, t') => (Raised e, t')
    | (SysExit o, t') => (SysExit o, t')
    end.

Declare Scope action_scope.
Delimit Scope action_scope with action.
Notation "x <- m ;; k" := (bind m (fun x => k))
  (at level 61, m at next level, right associativity) : action_scope.
Notation "m ;; k" := (bind m (fun _ => k))
  (at level 61, right associativity) : action_scope.

Definition exit_json {A : Type} (changed : bool) (result : option string) : M A :=
  fun t => (SysExit (ExitJson changed result), t).

Definition fail_json {A : Type} (msg : string) : M A :=
  fun t => (SysExit (FailJson msg), t).

(** A pure step. *)
Definition lift {A : Type} (r : result A) : M A :=
  fun t => (match r with Ok a => Normal a | Err e => Raised e end, t).

(** A call to the remote client: recorded, then its reply. *)
Definition remote {A : Type} (c : call) (reply : result A) : M A :=
  fun t => (match reply with Ok a => Normal a | Err e => Raised e end, (t ++ [c])%list).

(** [try: body except Exception as e: handler] *)
Definition try_except {A : Type} (body : M A) (handler : exn -> M A) : M A :=
  fun t =>
    match body t with
    | (Raised e, t') => handler e t'
    | r => r
    end.

(** [if c: m] *)
Definition when (c : bool) (m : M unit) : M unit :=
  if c then m else ret tt.

(** ** class Action

    [self._module.check_mode] is the parameter [check_mode], [self._zapi]
    the parameter [zapi], and the attribute [self.existing_data] (None
    until the lookup finds the action) is passed as an [option dict]. *)

Open Scope action_scope.

(** The lookup's outcome for the reply [result]: the new
    [self.existing_data] and the returned value.  When the first element
    has no 'actionid' the method returns the reply itself. *)
Definition first_match (result : list dict) : option dict * value :=
  match result with
  | first :: _ =>
      match dict_get "actionid" first with
      | Some actionid => (Some first, actionid)
      | None => (None, VList (map VDict result))
      end
  | [] => (None, VList (map VDict result))
  end.

Definition action_exists (zapi : ZabbixAPI) (action_name : string)
  : M (option dict * value) :=
  result <- remote (Get action_name) (action_get zapi action_name) ;;
  ret (first_match result).

(** The loop of [add_action]: the items of [data] whose value is true. *)
Fixpoint add_parameters (items : dict) (parameters : dict) : dict :=
  match items with
  | [] => parameters
  | (item, v) :: rest =>
      if truthy v then add_parameters rest (dict_set item v parameters)
      else add_parameters rest parameters
  end.

(** The lines after [exit_json] in the source are never reached. *)
Definition add_action (check_mode : bool) (zapi : ZabbixAPI) (data : dict) : M value :=
  try_except
    (when check_mode (exit_json true None) ;;
     let parameters := add_parameters data [] in
     action_ids_list <- remote (Create parameters) (action_create zapi parameters) ;;
     name <- lift (getitem data "name") ;;
     status <- lift (getitem data "status") ;;
     exit_json true
       (Some ("Successfully added action " ++ py_str name ++ " (" ++ py_str status ++ ")")))
    (fun e =>
       name <- lift (getitem data "name") ;;
       fail_json ("Failed to create action " ++ py_str name ++ ": " ++ exn_str e)).

Definition delete_action (check_mode : bool) (zapi : ZabbixAPI)
    (action_id : value) (action_name : string) : M unit :=
  try_except
    (when check_mode (exit_json true None) ;;
     _ <- remote (Delete [action_id]) (action_delete zapi [action_id]) ;;
     exit_json true (Some ("Successfully deleted" ++ " action " ++ action_name)))
    (fun e =>
       fail_json ("Failed to delete action " ++ action_name ++ ": " ++ exn_str e)).

(** ['interface' in self.existing_data and
     len(self.existing_data['interface']) > 0]: the old interface, or the
    empty dict. *)
Definition old_interface_of (existing_data : option dict) : result value :=
  match existing_data with
  | None => Err (TypeError "argument of type 'NoneType' is not iterable")
  | Some existing =>
      match dict_get "interface" existing with
      | None => Ok (VDict [])
      | Some old =>
          (n <- py_len old ;;
           if Nat.ltb 0 n then Ok old else Ok (VDict []))%result
      end
  end.

(** [final_interface = old_interface.copy()] followed by
    [final_interface.update(new_interface)].  Only a dict has both methods
    (a non-empty string has no [copy], a non-empty list no [update]).  A dict,
    an empty list and an empty string update as Python does, None, numbers
    and a non-empty string raise as Python does; a non-empty list of
    key/value pairs is not modelled as a source of updates and raises. *)
Definition copy_update (old_interface new_interface : value) : result dict :=
  match old_interface with
  | VDict old =>
      match new_interface with
      | VDict new => Ok (dict_update old new)
      | VList [] => Ok old
      | VStr EmptyString => Ok old
      | VStr _ =>
          Err (ValueError "dictionary update sequence element #0 has length 1; 2 is required")
      | VList _ =>
          Err (ValueError "dictionary update sequence element #0 is not a key/value pair")
      | other => Err (TypeError ("'" ++ type_name other ++ "' object is not iterable"))
      end
  | VList _ => Err (AttributeError "'list' object has no attribute 'update'")
  | other => Err (AttributeError ("'" ++ type_name other ++ "' object has no attribute 'copy'"))
  end.

(** [dict((k, str(v)) for k, v in final_interface.items())] *)
Definition stringify (d : dict) : dict :=
  map (fun kv => (fst kv, VStr (py_str (snd kv)))) d.

Definition compile_interface_params (existing_data : option dict)
    (new_interface : value) : result dict :=
  (old_interface <- old_interface_of existing_data ;;
   final_interface <- copy_update old_interface new_interface ;;
   let final_interface := stringify final_interface in
   if py_ne (VDict final_interface) old_interface then Ok final_interface
   else Ok [])%result.

(** The loop of [update_action].  [and] evaluates its operands in order, so
    [item in self.existing_data] is reached, and raises when
    [self.existing_data] is None, only for an item whose value is true. *)
Fixpoint changed_fields (existing_data : option dict) (items : dict)
    (parameters : dict) : result dict :=
  match items with
  | [] => Ok parameters
  | (item, v) :: rest =>
      if truthy v then
        match existing_data with
        | None => Err (TypeError "argument of type 'NoneType' is not iterable")
        | Some existing =>
            match dict_get item existing with
            | Some old =>
                if py_ne old v
                then changed_fields existing_data rest (dict_set item v parameters)
                else changed_fields existing_data rest parameters
            | None => changed_fields existing_data rest parameters
            end
        end
      else changed_fields existing_data rest parameters
  end.

(** The payload [update_action] builds before it decides whether to call
    the remote update. *)
Definition update_parameters (existing_data : option dict) (action_id : value)
    (data : dict) : result dict :=
  (parameters <- changed_fields existing_data data [("actionid", action_id)] ;;
   let parameters :=
     if dict_mem "interface" parameters then dict_pop "interface" parameters
     else parameters in
   match dict_get "interface" data with
   | Some new =>
       status <- getitem data "status" ;;
       if py_eq status (VStr "6") then
         new_interface <- compile_interface_params existing_data new ;;
         if Nat.ltb 0 (length new_interface)
         then Ok (dict_set "interface" (VDict new_interface) parameters)
         else Ok parameters
       else Ok parameters
   | None => Ok parameters
   end)%result.

Definition update_action (check_mode : bool) (zapi : ZabbixAPI)
    (existing_data : option dict) (action_id : value) (data : dict) : M unit :=
  try_except
    (when check_mode (exit_json true None) ;;
     parameters <- lift (update_parameters existing_data action_id data) ;;
     if Nat.ltb 1 (length parameters) then
       _ <- remote (Update parameters) (action_update zapi parameters) ;;
       host <- lift (getitem data "host") ;;
       exit_json true
         (Some ("Successfully updated action " ++ py_str host ++ " (" ++ py_str action_id ++ ")"))
     else exit_json false None)
    (fun e =>
       host <- lift (getitem data "host") ;;
       fail_json ("Failed to update action " ++ py_str host ++ ": " ++ exn_str e)).

(** ** main

    The module's parameters that reach the reconciliation, as
    [AnsibleModule] delivers them: [status] is 'active' or 'passive',
    [state] 'present' or 'absent', [eventsource] an integer, [operations]
    a list.  The model starts after the login. *)
Record params : Type := {
  action_name : string;
  status : string;
  state : string;
  esc_period : string;
  eventsource : Z;
  operations : list value
}.

(** [6 if status == "passive" else 5] *)
Definition status_code (status : string) : Z :=
  if String.eqb status "passive" then 6 else 5.

(** The dict [main] passes to [update_action] and to [add_action]. *)
Definition desired (p : params) : dict :=
  [ ("name", VStr (action_name p));
    ("status", VStr (str_int (status_code (status p))));
    ("esc_period", VStr (esc_period p));
    ("eventsource", VInt (eventsource p));
    ("operations", VList (operations p)) ].

Definition main (check_mode : bool) (zapi : ZabbixAPI) (p : params) : M unit :=
  found <- action_exists zapi (action_name p) ;;
  let existing_data := fst found in
  let action_id := snd found in
  if truthy action_id then
    if String.eqb (state p) "absent" then
      delete_action check_mode zapi action_id (action_name p)
    else
      update_action check_mode zapi existing_data action_id (desired p)
  else
    when (String.eqb (state p) "absent") (exit_json false None) ;;
    _ <- add_action check_mode zapi (desired p) ;;
    ret tt.

(** One run of the module: how it ends and the calls it issued. *)
Definition run (check_mode : bool) (zapi : ZabbixAPI) (p : params)
  : completion unit * list call :=
  main check_mode zapi p [].

Definition mutating_calls (t : list call) : list call := filter is_mutating t.

(** The [changed] flag a run reports, if it reports one. *)
Definition reported_changed {A : Type} (c : completion A) : option bool :=
  match c with
  | SysExit (ExitJson changed _) => Some changed
  | _ => None
  end.

(** ** Notions the properties are stated with *)

(** The three conditions of the loop of [update_action] on one item:
    [data[item] and item in self.existing_data and
     self.existing_data[item] != data[item]]. *)
Definition field_differs (existing : dict) (item : string) (v : value) : bool :=
  truthy v &&
  match dict_get item existing with
  | Some old => py_ne old v
  | None => false
  end.

(** Every value of the dict is a string. *)
Definition all_strings (d : dict) : bool :=
  forallb (fun kv => match snd kv with VStr _ => true | _ => false end) d.

(** The fields [main] describes an action with. *)
Definition fields : list string :=
  ["name"; "status"; "esc_period"; "eventsource"; "operations"].

(** ** Sample runs *)

(** A remote side that holds the records [found] under every name and
    accepts every call. *)
Definition accepting (found : list dict) : ZabbixAPI :=
  {| action_get := fun _ => Ok found;
     action_create := fun _ => Ok (VDict [("actionids", VList [VStr "7"])]);
     action_update := fun _ => Ok (VDict [("actionids", VList [VStr "7"])]);
     action_delete := fun _ => Ok (VDict [("actionids", VList [VStr "7"])]) |}.

(** A remote side that holds [found] and refuses every mutating call with
    the error text [text]. *)
Definition refusing (found : list dict) (text : string) : ZabbixAPI :=
  {| action_get := fun _ => Ok found;
     action_create := fun _ => Err (ZabbixAPIException text);
     action_update := fun _ => Err (ZabbixAPIException text);
     action_delete := fun _ => Err (ZabbixAPIException text) |}.

(** The action of the module's documentation, with no operations. *)
Definition sample_params (status state : string) : params :=
  {| action_name := "Exampleaction";
     status := status;
     state := state;
     esc_period := "2m";
     eventsource := 0;
     operations := [] |}.

(** The same action as the remote side stores it once created active. *)
Definition stored_action : dict :=
  [ ("actionid", VStr "7");
    ("name", VStr "Exampleaction");
    ("status", VStr "5");
    ("esc_period", VStr "2m");
    ("eventsource", VStr "0") ].

(** A record of the remote side that carries no 'actionid'. *)
Definition record_without_id : dict :=
  [ ("name", VStr "Exampleaction"); ("status", VStr "5") ].

(** A stored passive action with an interface, and a desired dict that
    carries an interface, as [update_action] accepts it. *)
Definition stored_with_interface : dict :=
  [ ("actionid", VStr "7");
    ("name", VStr "Exampleaction");
    ("status", VStr "6");
    ("interface", VDict [("dns", VStr "zbx"); ("port", VStr "10051")]) ].

Definition desired_with_interface : dict :=
  [ ("name", VStr "Exampleaction");
    ("status", VStr "6");
    ("interface", VDict [("port", VInt 10052)]) ].

(** ** The start of main

    Before the reconciliation [main] checks that the import of
    [zabbix_api] succeeded ([HAS_ZABBIX_API]) and opens the session:
    [ZabbixAPI(...)] and [zbx.login(...)] in one [try], whose outcome is
    [connect], the client or the exception raised.  The session is no call
    to [zapi.action], so it adds nothing to the trace. *)
Definition missing_library_msg : string :=
  "Missing requried zabbix-api module" ++ " (check docs or install with:" ++
  " pip install zabbix-api)".

Definition module_main (has_zabbix_api : bool) (connect : result ZabbixAPI)
    (check_mode : bool) (p : params) : M unit :=
  when (negb has_zabbix_api) (fail_json missing_library_msg) ;;
  zbx <- try_except (lift connect)
           (fun e => fail_json ("Failed to connect to Zabbix server: " ++ exn_str e)) ;;
  main check_mode zbx p.

(** A remote side whose lookup raises with the error text [text]. *)
Definition failing_lookup (text : string) : ZabbixAPI :=
  {| action_get := fun _ => Err (ZabbixAPIException text);
     action_create := fun _ => Ok VNone;
     action_update := fun _ => Ok VNone;
     action_delete := fun _ => Ok VNone |}.

(** * Properties *)

(** ** The model of Python on samples *)

Example py_str_int : py_str (VInt 1) = "1".
Proof. reflexivity. Qed.

Example py_str_negative : py_str (VInt (-25)) = "-25".
Proof. reflexivity. Qed.

Example py_str_list :
  py_str (VList [VInt 1; VStr "a"; VNone; VDict [("k", VBool true)]]) = "[1, 'a', None, {'k': True}]".
Proof. reflexivity. Qed.

Example py_repr_quote : py_repr (VStr "it's") = String dquote ("it's" ++ String dquote EmptyString).
Proof. reflexivity. Qed.

Example py_eq_bool_int : py_eq (VBool true) (VInt 1) = true /\ py_eq (VInt 1) (VStr "1") = false.
Proof. split; reflexivity. Qed.

Example py_eq_dict_order :
  py_eq (VDict [("a", VInt 1); ("b", VInt 2)]) (VDict [("b", VInt 2); ("a", VInt 1)]) = true.
Proof. reflexivity. Qed.

Example py_repr_escape :
  py_repr (VStr (String (ascii_of_nat 10) "a")) = String squote (String backslash "na'").
Proof. reflexivity. Qed.

Example truthy_samples :
  map truthy [VNone; VInt 0; VStr EmptyString; VList []; VDict []; VStr "0"; VInt 2; VList [VNone]]
  = [false; false; false; false; false; true; true; true].
Proof. reflexivity. Qed.

Example first_match_samples :
  first_match [] = (None, VList [])
  /\ first_match [stored_action; record_without_id] = (Some stored_action, VStr "7").
Proof. split; reflexivity. Qed.

Section DictFacts.

Lemma dict_get_set (k k' : string) (v : value) (d : dict) :
  dict_get k (dict_set k' v d) = if String.eqb k k' then Some v else dict_get k d.
Proof.
  induction d as [|[k0 v0] d IH]; simpl.
  - destruct (String.eqb k k'); reflexivity.
  - destruct (String.eqb_spec k' k0) as [->|Hne]; simpl.
    + destruct (String.eqb k k0); reflexivity.
    + rewrite IH. destruct (String.eqb_spec k k0) as [->|Hne'].
      * apply String.eqb_neq in Hne. rewrite String.eqb_sym in Hne. now rewrite Hne.
      * reflexivity.
Qed.

Lemma dict_mem_set (k k' : string) (v : value) (d : dict) :
  dict_mem k (dict_set k' v d) = String.eqb k k' || dict_mem k d.
Proof.
  unfold dict_mem. rewrite dict_get_set. now destruct (String.eqb k k').
Qed.

Lemma dict_wf_set (k : string) (v : value) (d : dict) :
  dict_wf d = true -> dict_wf (dict_set k v d) = true.
Proof.
  induction d as [|[k0 v0] d IH]; simpl; intros Hwf.
  - reflexivity.
  - apply andb_true_iff in Hwf as [Hfresh Hwf].
    destruct (String.eqb_spec k k0) as [->|Hne]; simpl.
    + apply andb_true_iff. now split.
    + apply andb_true_iff. split; [|now apply IH].
      rewrite dict_mem_set.
      apply String.eqb_neq in Hne. rewrite String.eqb_sym in Hne.
      now rewrite Hne.
Qed.

Lemma dict_get_pop_same (k : string) (d : dict) :
  dict_wf d = true -> dict_get k (dict_pop k d) = None.
Proof.
  induction d as [|[k0 v0] d IH]; simpl; intros Hwf.
  - reflexivity.
  - apply andb_true_iff in Hwf as [Hfresh Hwf].
    destruct (String.eqb_spec k k0) as [->|Hne]; simpl.
    + unfold dict_mem in Hfresh. now destruct (dict_get k0 d).
    + apply String.eqb_neq in Hne. rewrite Hne. now apply IH.
Qed.

Lemma dict_get_pop_other (k k' : string) (d : dict) :
  k <> k' -> dict_get k (dict_pop k' d) = dict_get k d.
Proof.
  intros Hne. induction d as [|[k0 v0] d IH]; simpl.
  - reflexivity.
  - destruct (String.eqb_spec k' k0) as [->|Hne']; simpl.
    + apply String.eqb_neq in Hne. now rewrite Hne.
    + now rewrite IH.
Qed.

Lemma dict_set_same (k : string) (v : value) (d : dict) :
  dict_get k d = Some v -> dict_set k v d = d.
Proof.
  induction d as [|[k0 v0] d IH]; simpl; intros Hget.
  - discriminate.
  - destruct (String.eqb_spec k k0) as [->|Hne].
    + now injection Hget as ->.
    + now rewrite IH.
Qed.

(** Updating a dict with items it already holds leaves it as it is. *)
Lemma dict_update_held (d other : dict) :
  (forall k v, In (k, v) other -> dict_get k d = Some v) -> dict_update d other = d.
Proof.
  unfold dict_update. induction other as [|[k v] other IH]; simpl; intros Hheld.
  - reflexivity.
  - rewrite dict_set_same by (apply Hheld; now left).
    apply IH. intros k' v' Hin. apply Hheld. now right.
Qed.

Lemma dict_wf_get (d : dict) (k : string) (v : value) :
  dict_wf d = true -> In (k, v) d -> dict_get k d = Some v.
Proof.
  induction d as [|[k0 v0] d IH]; simpl; intros Hwf Hin.
  - contradiction.
  - apply andb_true_iff in Hwf as [Hfresh Hwf].
    destruct Hin as [Heq|Hin].
    + injection Heq as -> ->. now rewrite String.eqb_refl.
    + specialize (IH Hwf Hin).
      destruct (String.eqb_spec k k0) as [->|Hne]; [|assumption].
      unfold dict_mem in Hfresh. rewrite IH in Hfresh. discriminate.
Qed.

Lemma dict_update_self (d : dict) : dict_wf d = true -> dict_update d d = d.
Proof.
  intros Hwf. apply dict_update_held. intros k v. now apply dict_wf_get.
Qed.

(** [update] overlays: a key of [other] takes its value there, any other
    key keeps the value it had. *)
Lemma dict_get_update (k : string) (other d : dict) :
  dict_wf other = true ->
  dict_get k (dict_update d other) =
    match dict_get k other with
    | Some v => Some v
    | None => dict_get k d
    end.
Proof.
  unfold dict_update. revert d.
  induction other as [|[k0 v0] other IH]; simpl; intros d Hwf.
  - reflexivity.
  - apply andb_true_iff in Hwf as [Hfresh Hwf].
    rewrite IH by assumption. rewrite dict_get_set.
    destruct (String.eqb_spec k k0) as [->|Hne].
    + unfold dict_mem in Hfresh. now destruct (dict_get k0 other).
    + reflexivity.
Qed.

End DictFacts.

Section LoopFacts.

Lemma dict_get_fresh (k : string) (d : dict) :
  dict_mem k d = false -> dict_get k d = None.
Proof. unfold dict_mem. now destruct (dict_get k d). Qed.

(** What the loop of [add_action] leaves under a key. *)
Lemma add_parameters_get (k : string) (items parameters : dict) :
  dict_wf items = true ->
  dict_get k (add_parameters items parameters) =
    match dict_get k items with
    | Some v => if truthy v then Some v else dict_get k parameters
    | None => dict_get k parameters
    end.
Proof.
  revert parameters.
  induction items as [|[k0 v0] items IH]; simpl; intros parameters Hwf.
  - reflexivity.
  - apply andb_true_iff in Hwf as [Hfresh Hwf].
    apply negb_true_iff, dict_get_fresh in Hfresh.
    destruct (truthy v0) eqn:Hv0; rewrite IH by assumption;
      destruct (String.eqb_spec k k0) as [->|Hne];
      rewrite ?Hfresh, ?dict_get_set, ?String.eqb_refl, ?Hv0; try reflexivity.
    apply String.eqb_neq in Hne. now rewrite Hne.
Qed.

(** The loop of [update_action] never raises once the lookup has stored a
    record, and leaves under a key what [field_differs] says. *)
Lemma changed_fields_get (existing : dict) (items : dict) :
  dict_wf items = true ->
  forall parameters, exists parameters',
    changed_fields (Some existing) items parameters = Ok parameters' /\
    (dict_wf parameters = true -> dict_wf parameters' = true) /\
    forall k,
      dict_get k parameters' =
        match dict_get k items with
        | Some v => if field_differs existing k v then Some v else dict_get k parameters
        | None => dict_get k parameters
        end.
Proof.
  induction items as [|[k0 v0] items IH]; simpl; intros Hwf parameters.
  - exists parameters. repeat split; auto.
  - apply andb_true_iff in Hwf as [Hfresh Hwf].
    apply negb_true_iff, dict_get_fresh in Hfresh.
    assert (Hstep : forall acc,
      (dict_wf parameters = true -> dict_wf acc = true) ->
      (forall k, dict_get k acc =
         if String.eqb k k0
         then (if field_differs existing k0 v0 then Some v0 else dict_get k parameters)
         else dict_get k parameters) ->
      exists parameters',
        changed_fields (Some existing) items acc = Ok parameters' /\
        (dict_wf parameters = true -> dict_wf parameters' = true) /\
        forall k,
          dict_get k parameters' =
            match (if String.eqb k k0 then Some v0 else dict_get k items) with
            | Some v => if field_differs existing k v then Some v else dict_get k parameters
            | None => dict_get k parameters
            end).
    { intros acc Hacc_wf Hacc.
      destruct (IH Hwf acc) as (ps & Hrun & Hps_wf & Hps).
      exists ps. split; [assumption|]. split; [auto|].
      intros k. rewrite Hps, Hacc.
      destruct (String.eqb_spec k k0) as [->|Hne].
      - rewrite Hfresh. reflexivity.
      - reflexivity. }
    unfold field_differs in Hstep |- *.
    destruct (truthy v0) eqn:Hv0; simpl in *.
    + destruct (dict_get k0 existing) as [old|] eqn:Hold.
      * destruct (py_ne old v0) eqn:Hne.
        -- apply Hstep.
           ++ intros H. now apply dict_wf_set, H.
           ++ intros k. rewrite dict_get_set. reflexivity.
        -- apply Hstep; [auto|]. intros k. now destruct (String.eqb k k0).
      * apply Hstep; [auto|]. intros k. now destruct (String.eqb k k0).
    + apply Hstep; [auto|]. intros k. now destruct (String.eqb k k0).
Qed.

End LoopFacts.

Section Dispatch.

Variable zapi : ZabbixAPI.
Variable p : params.

(** After the lookup, [main] dispatches on the truth of what
    [action_exists] returned and on [state]. *)
Lemma run_dispatch (check_mode : bool) (r : list dict) :
  action_get zapi (action_name p) = Ok r ->
  run check_mode zapi p =
    (if truthy (snd (first_match r)) then
       if String.eqb (state p) "absent" then
         delete_action check_mode zapi (snd (first_match r)) (action_name p)
       else
         update_action check_mode zapi (fst (first_match r)) (snd (first_match r)) (desired p)
     else
       when (String.eqb (state p) "absent") (exit_json false None) ;;
       _ <- add_action check_mode zapi (desired p) ;;
       ret tt) [Get (action_name p)].
Proof.
  intros Hget. unfold run, main, action_exists, bind, remote, ret.
  rewrite Hget. reflexivity.
Qed.

(** In check mode every mutating method leaves at once, with
    [changed=True] and before any call. *)
Lemma add_action_check_mode (data : dict) (t : list call) :
  add_action true zapi data t = (SysExit (ExitJson true None), t).
Proof. reflexivity. Qed.

Lemma delete_action_check_mode (action_id : value) (name : string) (t : list call) :
  delete_action true zapi action_id name t = (SysExit (ExitJson true None), t).
Proof. reflexivity. Qed.

Lemma update_action_check_mode (existing_data : option dict) (action_id : value)
    (data : dict) (t : list call) :
  update_action true zapi existing_data action_id data t = (SysExit (ExitJson true None), t).
Proof. reflexivity. Qed.

(** [delete_action] outside check mode: one delete call, then the report
    of its success or of the error it raised. *)
Lemma delete_action_run (action_id : value) (name : string) (t : list call) :
  delete_action false zapi action_id name t =
    (match action_delete zapi [action_id] with
     | Ok _ => SysExit (ExitJson true (Some ("Successfully deleted action " ++ name)))
     | Err e => SysExit (FailJson ("Failed to delete action " ++ name ++ ": " ++ exn_str e))
     end, (t ++ [Delete [action_id]])%list).
Proof.
  unfold delete_action, try_except, bind, when, ret, remote, exit_json, fail_json.
  destruct (action_delete zapi [action_id]); reflexivity.
Qed.

(** [add_action] outside check mode on the dict [main] builds: one create
    call, then the report of its success or of the error it raised. *)
Lemma add_action_run (t : list call) :
  add_action false zapi (desired p) t =
    (match action_create zapi (add_parameters (desired p) []) with
     | Ok _ =>
         SysExit (ExitJson true
           (Some ("Successfully added action " ++ action_name p ++
                  " (" ++ str_int (status_code (status p)) ++ ")")))
     | Err e =>
         SysExit (FailJson ("Failed to create action " ++ action_name p ++ ": " ++ exn_str e))
     end, (t ++ [Create (add_parameters (desired p) [])])%list).
Proof.
  unfold add_action, try_except, bind, when, ret, remote, exit_json, fail_json, lift.
  destruct (action_create zapi (add_parameters (desired p) [])); reflexivity.
Qed.

(** [update_action] outside check mode on the dict [main] builds.  The
    dict has no 'host': the success message and the handler's message both
    raise KeyError. *)
Lemma update_action_run (existing_data : option dict) (action_id : value) (t : list call) :
  update_action false zapi existing_data action_id (desired p) t =
    match update_parameters existing_data action_id (desired p) with
    | Ok parameters =>
        if Nat.ltb 1 (length parameters)
        then (Raised (KeyError "host"), (t ++ [Update parameters])%list)
        else (SysExit (ExitJson false None), t)
    | Err _ => (Raised (KeyError "host"), t)
    end.
Proof.
  unfold update_action, try_except, bind, when, ret, remote, exit_json, fail_json, lift.
  destruct (update_parameters existing_data action_id (desired p)) as [parameters|e].
  - destruct (Nat.ltb 1 (length parameters)); [|reflexivity].
    destruct (action_update zapi parameters); reflexivity.
  - reflexivity.
Qed.

End Dispatch.

(** ** Check mode *)

(** C1, as the code has it: in check mode the run issues the lookup and no
    other call, and reports [changed=True] unless the action is not found
    and the state is absent.  That is the report of the run outside check
    mode when the action is not found and the state absent, when it is not
    found, the state present and the create call succeeds, and when it is
    found, the state absent and the delete call succeeds. *)
Theorem check_mode_issues_no_mutation (zapi : ZabbixAPI) (p : params) (r : list dict) :
  action_get zapi (action_name p) = Ok r ->
  let found := truthy (snd (first_match r)) in
  let absent := String.eqb (state p) "absent" in
  run true zapi p = (SysExit (ExitJson (found || negb absent) None), [Get (action_name p)])
  /\ (found = false -> absent = true -> run false zapi p = run true zapi p)
  /\ (found = false -> absent = false ->
      forall ids, action_create zapi (add_parameters (desired p) []) = Ok ids ->
      reported_changed (fst (run false zapi p)) = reported_changed (fst (run true zapi p)))
  /\ (found = true -> absent = true ->
      forall ack, action_delete zapi [snd (first_match r)] = Ok ack ->
      reported_changed (fst (run false zapi p)) = reported_changed (fst (run true zapi p))).
Proof.
  intros Hget found absent.
  rewrite !(run_dispatch zapi p _ r Hget).
  fold found absent.
  repeat split.
  - destruct found, absent; reflexivity.
  - intros -> ->. reflexivity.
  - intros -> -> ids Hcreate.
    unfold when, bind, ret. rewrite add_action_run, Hcreate. reflexivity.
  - intros -> -> ack Hdelete.
    rewrite delete_action_run, Hdelete. reflexivity.
Qed.

Lemma check_mode_issues_no_mutation_witness :
  run true (accepting []) (sample_params "active" "present")
    = (SysExit (ExitJson true None), [Get "Exampleaction"])
  /\ reported_changed (fst (run false (accepting []) (sample_params "active" "present")))
     = reported_changed (fst (run true (accepting []) (sample_params "active" "present"))).
Proof.
  pose proof (check_mode_issues_no_mutation (accepting [])
                (sample_params "active" "present") [] eq_refl) as (Hdry & _ & Hcreate & _).
  split.
  - exact Hdry.
  - exact (Hcreate eq_refl eq_refl _ eq_refl).
Defined.

(** C1 as stated fails when the action is found and the state is present:
    with every compared field equal the run reports [changed=False], the
    same run in check mode reports [changed=True]. *)
Lemma check_mode_report_differs :
  run false (accepting [stored_action]) (sample_params "active" "present")
    = (SysExit (ExitJson false None), [Get "Exampleaction"])
  /\ run true (accepting [stored_action]) (sample_params "active" "present")
    = (SysExit (ExitJson true None), [Get "Exampleaction"])
  /\ reported_changed (fst (run true (accepting [stored_action]) (sample_params "active" "present")))
     <> reported_changed (fst (run false (accepting [stored_action]) (sample_params "active" "present"))).
Proof.
  repeat split; try reflexivity. discriminate.
Qed.

(** ** The update path from [main] *)

(** C2: outside check mode, when [main] reaches [update_action] and the
    payload holds a key besides 'actionid', the update call is issued and
    the run ends with KeyError 'host', raised by the success message and
    again by the handler's message; no run through [update_action] from
    [main] reports [changed=True].  The keys of the dict [main] passes are
    name, status, esc_period, eventsource and operations, so [data['host']]
    raises. *)
Theorem update_from_main_raises_KeyError (zapi : ZabbixAPI) (p : params) (r : list dict) :
  action_get zapi (action_name p) = Ok r ->
  truthy (snd (first_match r)) = true ->
  String.eqb (state p) "absent" = false ->
  (forall parameters,
      update_parameters (fst (first_match r)) (snd (first_match r)) (desired p) = Ok parameters ->
      (1 < length parameters)%nat ->
      run false zapi p = (Raised (KeyError "host"), [Get (action_name p); Update parameters]))
  /\ (forall result, fst (run false zapi p) <> SysExit (ExitJson true result))
  /\ map fst (desired p) = fields
  /\ getitem (desired p) "host" = Err (KeyError "host").
Proof.
  intros Hget Hfound Hstate.
  rewrite (run_dispatch zapi p _ r Hget), Hfound, Hstate, update_action_run.
  split; [|split; [|split; reflexivity]].
  - intros parameters -> Hlen.
    apply Nat.ltb_lt in Hlen. now rewrite Hlen.
  - intros result.
    destruct (update_parameters _ _ _) as [parameters|e]; [|discriminate].
    destruct (Nat.ltb 1 (length parameters)); discriminate.
Qed.

Lemma update_from_main_raises_KeyError_witness :
  run false (accepting [stored_action]) (sample_params "passive" "present")
    = (Raised (KeyError "host"),
       [Get "Exampleaction"; Update [("actionid", VStr "7"); ("status", VStr "6")]]).
Proof.
  apply (proj1 (update_from_main_raises_KeyError (accepting [stored_action])
                  (sample_params "passive" "present") [stored_action]
                  eq_refl eq_refl eq_refl)).
  - reflexivity.
  - simpl. lia.
Defined.

(** ** The lookup *)

(** C3 fails on the code: when the reply is not empty and its first
    element has no 'actionid', [action_exists] returns the reply itself, a
    non-empty list and so a true value.  [main] then takes the branches of
    a found action: with state absent it calls the remote delete with the
    reply as identifier, with state present it reaches [update_action],
    which raises, and it never creates the action. *)
Lemma lookup_without_actionid_counts_as_found :
  first_match [record_without_id] = (None, VList [VDict record_without_id])
  /\ run false (accepting [record_without_id]) (sample_params "active" "absent")
     = (SysExit (ExitJson true (Some "Successfully deleted action Exampleaction")),
        [Get "Exampleaction"; Delete [VList [VDict record_without_id]]])
  /\ run false (accepting [record_without_id]) (sample_params "active" "present")
     = (Raised (KeyError "host"), [Get "Exampleaction"]).
Proof. repeat split; reflexivity. Qed.

(** ** State absent *)

(** C8, as the code has it: with state absent, a run whose lookup returns
    a false value reports [changed=False] and issues no call but the
    lookup, in check mode or not; a run whose lookup finds a record with a
    true 'actionid' issues, outside check mode, the lookup and exactly one
    delete call with that identifier, whatever the other parameters and
    the rest of the record are, and reports what the delete call did; in
    check mode it issues no delete call and reports [changed=True]. *)
Theorem absent_state_dispatch (zapi : ZabbixAPI) (p : params) (r : list dict) :
  action_get zapi (action_name p) = Ok r ->
  state p = "absent" ->
  (truthy (snd (first_match r)) = false ->
   forall check_mode,
     run check_mode zapi p = (SysExit (ExitJson false None), [Get (action_name p)]))
  /\ (forall first rest actionid,
        r = first :: rest ->
        dict_get "actionid" first = Some actionid ->
        truthy actionid = true ->
        run false zapi p =
          (match action_delete zapi [actionid] with
           | Ok _ =>
               SysExit (ExitJson true (Some ("Successfully deleted action " ++ action_name p)))
           | Err e =>
               SysExit (FailJson ("Failed to delete action " ++ action_name p ++ ": " ++ exn_str e))
           end, [Get (action_name p); Delete [actionid]])
        /\ mutating_calls (snd (run false zapi p)) = [Delete [actionid]]
        /\ run true zapi p = (SysExit (ExitJson true None), [Get (action_name p)])).
Proof.
  intros Hget Hstate. split.
  - intros Hnot check_mode.
    rewrite (run_dispatch zapi p _ r Hget), Hnot, Hstate. reflexivity.
  - intros first rest actionid -> Hid Htrue.
    assert (Hrun : run false zapi p =
      (match action_delete zapi [actionid] with
       | Ok _ =>
           SysExit (ExitJson true (Some ("Successfully deleted action " ++ action_name p)))
       | Err e =>
           SysExit (FailJson ("Failed to delete action " ++ action_name p ++ ": " ++ exn_str e))
       end, [Get (action_name p); Delete [actionid]])).
    { assert (Hmatch : first_match (first :: rest) = (Some first, actionid))
        by (unfold first_match; now rewrite Hid).
      rewrite (run_dispatch zapi p _ _ Hget), Hmatch.
      cbn [fst snd]. rewrite Htrue, Hstate.
      apply delete_action_run. }
    split; [exact Hrun|]. split; [rewrite Hrun; reflexivity|].
    assert (Hmatch : first_match (first :: rest) = (Some first, actionid))
      by (unfold first_match; now rewrite Hid).
    rewrite (run_dispatch zapi p _ _ Hget), Hmatch.
    cbn [fst snd]. rewrite Htrue, Hstate. reflexivity.
Qed.

Lemma absent_state_dispatch_witness :
  (forall check_mode,
     run check_mode (accepting []) (sample_params "passive" "absent")
       = (SysExit (ExitJson false None), [Get "Exampleaction"]))
  /\ mutating_calls (snd (run false (refusing [stored_action] "No permissions")
                            (sample_params "passive" "absent")))
     = [Delete [VStr "7"]].
Proof.
  split.
  - exact (proj1 (absent_state_dispatch (accepting []) (sample_params "passive" "absent") []
                    eq_refl eq_refl) eq_refl).
  - exact (proj1 (proj2 (proj2 (absent_state_dispatch (refusing [stored_action] "No permissions")
                                  (sample_params "passive" "absent") [stored_action]
                                  eq_refl eq_refl)
                           stored_action [] (VStr "7") eq_refl eq_refl eq_refl))).
Defined.

(** C8 as stated fails in check mode: the action is found, the state is
    absent, and the run issues no delete call. *)
Lemma check_mode_issues_no_delete :
  run true (accepting [stored_action]) (sample_params "active" "absent")
    = (SysExit (ExitJson true None), [Get "Exampleaction"])
  /\ mutating_calls (snd (run true (accepting [stored_action]) (sample_params "active" "absent")))
     <> [Delete [VStr "7"]].
Proof. split; [reflexivity|discriminate]. Qed.

(** ** Create *)

Lemma desired_wf (p : params) : dict_wf (desired p) = true.
Proof. reflexivity. Qed.

Lemma desired_keys (p : params) : map fst (desired p) = fields.
Proof. reflexivity. Qed.

Lemma desired_get_field (p : params) (k : string) (v : value) :
  dict_get k (desired p) = Some v -> In k fields.
Proof.
  unfold desired, fields. simpl.
  repeat match goal with
         | |- context [String.eqb k ?s] =>
             destruct (String.eqb_spec k s) as [->|?]; [intros _; simpl; tauto|]
         end.
  discriminate.
Qed.

(** C9, as the code has it: when the lookup returns a false value and the
    state is not absent, the run outside check mode issues one create
    call, whose payload holds a key with a value exactly when the key is
    one of name, status, esc_period, eventsource, operations and that
    value is its desired value and is true; in check mode it issues no
    create call. *)
Theorem create_payload_is_truthy_subset (zapi : ZabbixAPI) (p : params) (r : list dict) :
  action_get zapi (action_name p) = Ok r ->
  truthy (snd (first_match r)) = false ->
  String.eqb (state p) "absent" = false ->
  let parameters := add_parameters (desired p) [] in
  snd (run false zapi p) = [Get (action_name p); Create parameters]
  /\ (forall k v,
        dict_get k parameters = Some v <->
        In k fields /\ dict_get k (desired p) = Some v /\ truthy v = true)
  /\ snd (run true zapi p) = [Get (action_name p)].
Proof.
  intros Hget Hnot Hstate parameters. split; [|split].
  - rewrite (run_dispatch zapi p _ r Hget), Hnot, Hstate.
    unfold when, bind, ret. rewrite add_action_run.
    destruct (action_create zapi (add_parameters (desired p) [])); reflexivity.
  - intros k v. unfold parameters.
    rewrite add_parameters_get by apply desired_wf. simpl (dict_get k []).
    destruct (dict_get k (desired p)) as [v'|] eqn:Hk.
    + destruct (truthy v') eqn:Hv'; split.
      * intros [= <-]. eauto using desired_get_field.
      * now intros (_ & [= <-] & _).
      * discriminate.
      * intros (_ & [= <-] & Hv). congruence.
    + split; [discriminate|]. now intros (_ & ? & _).
  - rewrite (run_dispatch zapi p _ r Hget), Hnot, Hstate. reflexivity.
Qed.

Lemma create_payload_is_truthy_subset_witness :
  snd (run false (accepting []) (sample_params "active" "present"))
  = [Get "Exampleaction";
     Create [("name", VStr "Exampleaction"); ("status", VStr "5"); ("esc_period", VStr "2m")]].
Proof.
  exact (proj1 (create_payload_is_truthy_subset (accepting [])
                  (sample_params "active" "present") [] eq_refl eq_refl eq_refl)).
Defined.

(** C9 as stated fails in check mode: the action is not found, the state
    is present, and [add_action] sends no create payload. *)
Lemma check_mode_sends_no_create :
  run true (accepting []) (sample_params "active" "present")
    = (SysExit (ExitJson true None), [Get "Exampleaction"])
  /\ mutating_calls (snd (run true (accepting []) (sample_params "active" "present")))
     <> [Create [("name", VStr "Exampleaction"); ("status", VStr "5"); ("esc_period", VStr "2m")]].
Proof. split; [reflexivity|discriminate]. Qed.

(** ** The interface merge *)

Section InterfaceFacts.

Lemma stringify_strings (d : dict) : all_strings d = true -> stringify d = d.
Proof.
  unfold all_strings, stringify.
  induction d as [|[k v] d IH]; simpl; intros Hall.
  - reflexivity.
  - apply andb_true_iff in Hall as [Hv Hall].
    destruct v; try discriminate. simpl. now rewrite IH.
Qed.

(** A dict of strings equals itself. *)
Lemma py_eq_strings_refl (d : dict) :
  dict_wf d = true -> all_strings d = true -> py_eq (VDict d) (VDict d) = true.
Proof.
  intros Hwf Hall. simpl. rewrite Nat.eqb_refl. simpl.
  apply forallb_forall. intros [k v] Hin.
  rewrite (dict_wf_get d k v Hwf Hin).
  unfold all_strings in Hall. rewrite forallb_forall in Hall.
  specialize (Hall (k, v) Hin). simpl in Hall.
  destruct v; try discriminate. simpl. apply String.eqb_refl.
Qed.

Lemma compile_interface_params_dicts (existing_data : option dict) (old new : dict) :
  old_interface_of existing_data = Ok (VDict old) ->
  compile_interface_params existing_data (VDict new) =
    Ok (if py_eq (VDict (stringify (dict_update old new))) (VDict old) then []
        else stringify (dict_update old new)).
Proof.
  intros Hold. unfold compile_interface_params. rewrite Hold.
  unfold rbind, copy_update, py_ne.
  now destruct (py_eq (VDict (stringify (dict_update old new))) (VDict old)).
Qed.

Lemma all_strings_stringify (d : dict) : all_strings (stringify d) = true.
Proof.
  unfold all_strings, stringify. induction d as [|[k v] d IH]; simpl; auto.
Qed.

(** Whatever [compile_interface_params] returns holds strings only. *)
Lemma compile_interface_params_strings (existing_data : option dict)
    (new_interface : value) (merged : dict) :
  compile_interface_params existing_data new_interface = Ok merged ->
  all_strings merged = true.
Proof.
  unfold compile_interface_params, rbind.
  destruct (old_interface_of existing_data) as [old|]; [|discriminate].
  destruct (copy_update old new_interface) as [final|]; [|discriminate].
  destruct (py_ne (VDict (stringify final)) old); intros [= <-].
  - apply all_strings_stringify.
  - reflexivity.
Qed.

End InterfaceFacts.

(** C4, as the code has it: for an existing interface that is a dict of
    strings, merging the empty dict returns the empty dict and merging the
    existing interface itself returns the empty dict; merging {a: 1} into
    an empty existing interface returns {a: '1'}, and every value of a
    merge's result is a string. *)
Theorem interface_merge_laws (existing : dict) (old : dict) :
  old_interface_of (Some existing) = Ok (VDict old) ->
  dict_wf old = true ->
  all_strings old = true ->
  compile_interface_params (Some existing) (VDict []) = Ok []
  /\ compile_interface_params (Some existing) (VDict old) = Ok []
  /\ (old = [] ->
      compile_interface_params (Some existing) (VDict [("a", VInt 1)]) = Ok [("a", VStr "1")])
  /\ (forall new merged,
        compile_interface_params (Some existing) new = Ok merged -> all_strings merged = true).
Proof.
  intros Hold Hwf Hall.
  rewrite !(compile_interface_params_dicts _ old _ Hold).
  rewrite dict_update_self by assumption.
  change (dict_update old []) with old.
  rewrite stringify_strings, py_eq_strings_refl by assumption.
  repeat split.
  - intros ->. reflexivity.
  - intros new merged. apply compile_interface_params_strings.
Qed.

Lemma interface_merge_laws_witness :
  compile_interface_params
    (Some (stored_action ++ [("interface", VDict [("dns", VStr "zbx"); ("port", VStr "10051")])])%list)
    (VDict [("dns", VStr "zbx"); ("port", VStr "10051")]) = Ok []
  /\ compile_interface_params (Some stored_action) (VDict [("a", VInt 1)]) = Ok [("a", VStr "1")].
Proof.
  split.
  - exact (proj1 (proj2 (interface_merge_laws
             (stored_action ++ [("interface", VDict [("dns", VStr "zbx"); ("port", VStr "10051")])])%list
             [("dns", VStr "zbx"); ("port", VStr "10051")] eq_refl eq_refl eq_refl))).
  - exact (proj1 (proj2 (proj2 (interface_merge_laws stored_action [] eq_refl eq_refl eq_refl)))
             eq_refl).
Defined.

(** C4 as stated fails for an existing interface that holds a value that is
    not a string: the merge coerces it, the result differs from the
    existing interface and is returned, for the empty desired interface and
    for the existing interface itself. *)
Lemma interface_merge_coerces_existing :
  compile_interface_params (Some [("actionid", VStr "7"); ("interface", VDict [("port", VInt 10051)])])
    (VDict []) = Ok [("port", VStr "10051")]
  /\ compile_interface_params (Some [("actionid", VStr "7"); ("interface", VDict [("port", VInt 10051)])])
    (VDict [("port", VInt 10051)]) = Ok [("port", VStr "10051")]
  /\ compile_interface_params (Some [("actionid", VStr "7"); ("interface", VDict [("port", VInt 10051)])])
    (VDict []) <> Ok [].
Proof. repeat split; try reflexivity. discriminate. Qed.

(** ** The update payload *)

Section PayloadFacts.

(** The loop of [update_action] keeps the payload a dict. *)
Lemma changed_fields_wf (existing_data : option dict) (items : dict) :
  forall parameters parameters',
    changed_fields existing_data items parameters = Ok parameters' ->
    dict_wf parameters = true -> dict_wf parameters' = true.
Proof.
  induction items as [|[k0 v0] items IH]; simpl; intros parameters parameters' Hrun Hwf.
  - now injection Hrun as <-.
  - destruct (truthy v0); [|eauto].
    destruct existing_data as [existing|]; [|discriminate].
    destruct (dict_get k0 existing) as [old|]; [|eauto].
    destruct (py_ne old v0); eauto using dict_wf_set.
Qed.

(** After the loop and the [pop], the payload has no 'interface'. *)
Lemma generic_diff_drops_interface (parameters : dict) :
  dict_wf parameters = true ->
  dict_get "interface"
    (if dict_mem "interface" parameters then dict_pop "interface" parameters
     else parameters) = None.
Proof.
  intros Hwf. destruct (dict_mem "interface" parameters) eqn:Hmem.
  - now apply dict_get_pop_same.
  - now apply dict_get_fresh.
Qed.

Lemma field_differs_spec (existing : dict) (item : string) (v : value) :
  field_differs existing item v = true <->
  truthy v = true /\ exists old, dict_get item existing = Some old /\ py_eq old v = false.
Proof.
  unfold field_differs, py_ne. rewrite andb_true_iff.
  destruct (dict_get item existing) as [old|].
  - rewrite negb_true_iff. split.
    + intros [Hv Hne]. eauto.
    + intros (Hv & old' & [= <-] & Hne). auto.
  - split.
    + intros [_ ?]. discriminate.
    + intros (_ & old' & ? & _). discriminate.
Qed.

Lemma field_is_not_actionid (item : string) : In item fields -> item <> "actionid".
Proof.
  unfold fields. simpl. intros H Heq. subst item.
  repeat destruct H as [H|H]; try discriminate H. exact H.
Qed.

Lemma field_is_not_interface (item : string) : In item fields -> item <> "interface".
Proof.
  unfold fields. simpl. intros H Heq. subst item.
  repeat destruct H as [H|H]; try discriminate H. exact H.
Qed.

(** The payload for the dict [main] builds, key by key. *)
Lemma update_parameters_desired (existing : dict) (action_id : value) (p : params) :
  exists parameters,
    update_parameters (Some existing) action_id (desired p) = Ok parameters /\
    forall k,
      dict_get k parameters =
        match dict_get k (desired p) with
        | Some v =>
            if field_differs existing k v then Some v
            else dict_get k [("actionid", action_id)]
        | None => dict_get k [("actionid", action_id)]
        end.
Proof.
  destruct (changed_fields_get existing (desired p) (desired_wf p) [("actionid", action_id)])
    as (ps & Hrun & _ & Hps).
  exists ps. split; [|exact Hps].
  unfold update_parameters. rewrite Hrun. unfold rbind.
  assert (Hno : dict_mem "interface" ps = false).
  { unfold dict_mem. rewrite Hps. reflexivity. }
  rewrite Hno. reflexivity.
Qed.

End PayloadFacts.

(** C5: for the dict [main] builds and a record the lookup stored,
    [update_action] builds a payload; each of name, status, esc_period,
    eventsource, operations is a key of it exactly when its desired value
    is true, the record has the key, and the record's value differs from
    the desired one under [!=]; the payload then holds the desired value.
    'actionid' is its only other key. *)
Theorem update_payload_fields (existing : dict) (action_id : value) (p : params) :
  exists parameters,
    update_parameters (Some existing) action_id (desired p) = Ok parameters
    /\ Forall (fun item =>
         exists v,
           dict_get item (desired p) = Some v
           /\ (dict_mem item parameters = true <->
               truthy v = true
               /\ exists old, dict_get item existing = Some old /\ py_ne old v = true)
           /\ (dict_mem item parameters = true -> dict_get item parameters = Some v)) fields
    /\ dict_get "actionid" parameters = Some action_id
    /\ (forall k, dict_mem k parameters = true -> k = "actionid" \/ In k fields).
Proof.
  destruct (update_parameters_desired existing action_id p) as (ps & Hrun & Hps).
  exists ps. split; [exact Hrun|]. split; [|split].
  - apply Forall_forall. intros item Hin.
    pose proof (field_is_not_actionid item Hin) as Hid.
    assert (Hv : exists v, dict_get item (desired p) = Some v).
    { unfold fields in Hin. simpl in Hin.
      repeat destruct Hin as [<-|Hin]; try (eexists; reflexivity). contradiction. }
    destruct Hv as [v Hv]. exists v. split; [exact Hv|].
    assert (Hget : dict_get item ps = if field_differs existing item v then Some v else None).
    { rewrite Hps, Hv. destruct (field_differs existing item v); [reflexivity|].
      simpl. apply String.eqb_neq in Hid. now rewrite Hid. }
    unfold dict_mem. rewrite Hget.
    pose proof (field_differs_spec existing item v) as Hspec.
    unfold py_ne. setoid_rewrite negb_true_iff.
    destruct (field_differs existing item v); split; try tauto; try discriminate.
  - rewrite Hps. reflexivity.
  - intros k. unfold dict_mem. rewrite Hps.
    destruct (dict_get k (desired p)) as [v|] eqn:Hk.
    + intros _. right. eauto using desired_get_field.
    + simpl. destruct (String.eqb_spec k "actionid"); [auto|discriminate].
Qed.

Lemma dict_get_stringify (k : string) (d : dict) :
  dict_get k (stringify d) = option_map (fun v => VStr (py_str v)) (dict_get k d).
Proof.
  unfold stringify. induction d as [|[k0 v0] d IH]; simpl.
  - reflexivity.
  - now destruct (String.eqb k k0).
Qed.

(** C7: the payload [update_action] builds has the key 'interface' exactly
    when the desired dict has the key 'interface', its status equals '6'
    and [compile_interface_params] returns a dict that is not empty, which
    is then the value; what the loop put under 'interface' is dropped.
    For an existing interface [old] and a desired one [new] the merge is
    [old] updated with [new] (a key of [new] takes its new value, any
    other key of [old] stays), each value coerced with [str], and it is
    returned as the empty dict, and so left out, when it equals [old]. *)
Theorem interface_in_update_payload (existing_data : option dict) (action_id : value)
    (data parameters : dict) :
  update_parameters existing_data action_id data = Ok parameters ->
  (forall v,
      dict_get "interface" parameters = Some v <->
      exists new status merged,
        dict_get "interface" data = Some new
        /\ dict_get "status" data = Some status
        /\ py_eq status (VStr "6") = true
        /\ compile_interface_params existing_data new = Ok merged
        /\ merged <> []
        /\ v = VDict merged)
  /\ (forall old new,
        old_interface_of existing_data = Ok (VDict old) ->
        compile_interface_params existing_data (VDict new) =
          Ok (if py_eq (VDict (stringify (dict_update old new))) (VDict old) then []
              else stringify (dict_update old new)))
  /\ (forall old new k,
        dict_wf new = true ->
        dict_get k (stringify (dict_update old new)) =
          option_map (fun x => VStr (py_str x))
            (match dict_get k new with
             | Some x => Some x
             | None => dict_get k old
             end)).
Proof.
  intros Hrun. split; [|split].
  - unfold update_parameters, rbind in Hrun.
    destruct (changed_fields existing_data data [("actionid", action_id)])
      as [ps|] eqn:Hloop; [|discriminate].
    pose proof (changed_fields_wf _ _ _ _ Hloop eq_refl) as Hwf.
    pose proof (generic_diff_drops_interface ps Hwf) as Hdrop.
    set (ps' := if dict_mem "interface" ps then dict_pop "interface" ps else ps) in *.
    destruct (dict_get "interface" data) as [new|] eqn:Hnew.
    + unfold getitem in Hrun.
      destruct (dict_get "status" data) as [status|] eqn:Hstatus; [|discriminate].
      destruct (py_eq status (VStr "6")) eqn:Hsix.
      * destruct (compile_interface_params existing_data new) as [merged|] eqn:Hmerge;
          [|discriminate].
        destruct merged as [|kv merged]; simpl in Hrun; injection Hrun as <-.
        -- intros v. rewrite Hdrop. split; [discriminate|].
           intros (new' & status' & merged' & [= <-] & _ & _ & Hmerge' & Hne & _).
           rewrite Hmerge in Hmerge'. injection Hmerge' as <-. now contradiction Hne.
        -- intros v. rewrite dict_get_set. simpl. split.
           ++ intros [= <-]. exists new, status, (kv :: merged).
              repeat split; auto. discriminate.
           ++ intros (new' & status' & merged' & [= <-] & _ & _ & Hmerge' & _ & ->).
              rewrite Hmerge in Hmerge'. now injection Hmerge' as <-.
      * injection Hrun as <-. intros v. rewrite Hdrop. split; [discriminate|].
        intros (new' & status' & merged' & _ & [= <-] & Hsix' & _). congruence.
    + injection Hrun as <-. intros v. rewrite Hdrop. split; [discriminate|].
      intros (new' & status' & merged' & ? & _). discriminate.
  - intros old new. apply compile_interface_params_dicts.
  - intros old new k Hwf. now rewrite dict_get_stringify, dict_get_update.
Qed.

Lemma interface_in_update_payload_witness :
  exists new status merged,
    dict_get "interface" desired_with_interface = Some new
    /\ dict_get "status" desired_with_interface = Some status
    /\ py_eq status (VStr "6") = true
    /\ compile_interface_params (Some stored_with_interface) new = Ok merged
    /\ merged <> []
    /\ VDict [("dns", VStr "zbx"); ("port", VStr "10052")] = VDict merged.
Proof.
  exact (proj1 (proj1 (interface_in_update_payload (Some stored_with_interface) (VStr "7")
                         desired_with_interface
                         [("actionid", VStr "7");
                          ("interface", VDict [("dns", VStr "zbx"); ("port", VStr "10052")])]
                         eq_refl)
                  (VDict [("dns", VStr "zbx"); ("port", VStr "10052")]))
           eq_refl).
Defined.

(** ** What the run reports after the update call *)

(** C6 fails on the code in its second half: for the stored active action
    and the desired status passive the payload holds 'actionid' and
    'status', the update call is issued with it and accepted, and the run
    ends with KeyError 'host' instead of a report of [changed=True]. *)
Lemma accepted_update_is_not_reported :
  update_parameters (Some stored_action) (VStr "7") (desired (sample_params "passive" "present"))
    = Ok [("actionid", VStr "7"); ("status", VStr "6")]
  /\ run false (accepting [stored_action]) (sample_params "passive" "present")
     = (Raised (KeyError "host"),
        [Get "Exampleaction"; Update [("actionid", VStr "7"); ("status", VStr "6")]])
  /\ reported_changed (fst (run false (accepting [stored_action])
                              (sample_params "passive" "present"))) = None.
Proof. repeat split; reflexivity. Qed.

(** C10 fails on the code for the update call: when the remote side
    refuses the update, the handler of [update_action] raises KeyError
    'host' while it formats its message, so no [fail_json] is reached and
    neither the action's name nor the remote error text is reported.  A
    refused create and a refused delete are reported with both. *)
Lemma refused_update_is_not_reported :
  run false (refusing [stored_action] "Invalid params") (sample_params "passive" "present")
    = (Raised (KeyError "host"),
       [Get "Exampleaction"; Update [("actionid", VStr "7"); ("status", VStr "6")]])
  /\ run false (refusing [] "Invalid params") (sample_params "passive" "present")
     = (SysExit (FailJson "Failed to create action Exampleaction: Invalid params"),
        [Get "Exampleaction";
         Create [("name", VStr "Exampleaction"); ("status", VStr "6"); ("esc_period", VStr "2m")]])
  /\ run false (refusing [stored_action] "Invalid params") (sample_params "passive" "absent")
     = (SysExit (FailJson "Failed to delete action Exampleaction: Invalid params"),
        [Get "Exampleaction"; Delete [VStr "7"]]).
Proof. repeat split; reflexivity. Qed.

(** ** Further properties *)

(** X1: the status code is 5 for 'active', 6 for 'passive', and never
    anything else. *)
Theorem status_code_values :
  status_code "active" = 5 /\ status_code "passive" = 6
  /\ forall s, status_code s = 5 \/ status_code s = 6.
Proof.
  repeat split. intros s. unfold status_code.
  destruct (String.eqb s "passive"); auto.
Qed.

(** X2: when the payload holds 'actionid' only, [update_action] outside
    check mode issues no call and reports [changed=False]. *)
Theorem unchanged_action_is_not_updated (zapi : ZabbixAPI) (existing_data : option dict)
    (action_id : value) (data parameters : dict) (t : list call) :
  update_parameters existing_data action_id data = Ok parameters ->
  (length parameters <= 1)%nat ->
  update_action false zapi existing_data action_id data t = (SysExit (ExitJson false None), t).
Proof.
  intros Hrun Hlen.
  unfold update_action, try_except, bind, when, ret, lift, exit_json.
  rewrite Hrun. apply Nat.ltb_ge in Hlen. now rewrite Hlen.
Qed.

Lemma unchanged_action_is_not_updated_witness :
  update_action false (accepting [stored_action]) (Some stored_action) (VStr "7")
    (desired (sample_params "active" "present")) []
  = (SysExit (ExitJson false None), []).
Proof.
  apply (unchanged_action_is_not_updated _ _ _ _ [("actionid", VStr "7")]).
  - reflexivity.
  - simpl. lia.
Defined.

(** X3: a create call or a delete call that raises ends the run with
    [fail_json], whose message holds the action's name and the text of the
    error; the refused call is the only call added to the run. *)
Theorem refused_create_and_delete_are_reported (zapi : ZabbixAPI) (p : params)
    (action_id : value) (t : list call) (e : exn) :
  (action_create zapi (add_parameters (desired p) []) = Err e ->
   add_action false zapi (desired p) t =
     (SysExit (FailJson ("Failed to create action " ++ action_name p ++ ": " ++ exn_str e)),
      (t ++ [Create (add_parameters (desired p) [])])%list))
  /\ (action_delete zapi [action_id] = Err e ->
      delete_action false zapi action_id (action_name p) t =
        (SysExit (FailJson ("Failed to delete action " ++ action_name p ++ ": " ++ exn_str e)),
         (t ++ [Delete [action_id]])%list)).
Proof.
  split; intros Herr.
  - rewrite add_action_run, Herr. reflexivity.
  - rewrite delete_action_run, Herr. reflexivity.
Qed.

(** ** The calls of a run *)

Section RunFacts.

Variable zapi : ZabbixAPI.
Variable p : params.

(** A lookup that raises ends the run with its exception. *)
Lemma run_lookup_raises (check_mode : bool) (e : exn) :
  action_get zapi (action_name p) = Err e ->
  run check_mode zapi p = (Raised e, [Get (action_name p)]).
Proof.
  intros Hget. unfold run, main, action_exists, bind, remote. now rewrite Hget.
Qed.

(** The calls of a run after the lookup [r] returned. *)
Lemma run_calls (check_mode : bool) (r : list dict) :
  action_get zapi (action_name p) = Ok r ->
  snd (run check_mode zapi p) =
    Get (action_name p) ::
    (if check_mode then []
     else if truthy (snd (first_match r)) then
       if String.eqb (state p) "absent" then [Delete [snd (first_match r)]]
       else
         match update_parameters (fst (first_match r)) (snd (first_match r)) (desired p) with
         | Ok parameters =>
             if Nat.ltb 1 (length parameters) then [Update parameters] else []
         | Err _ => []
         end
     else if String.eqb (state p) "absent" then []
     else [Create (add_parameters (desired p) [])]).
Proof.
  intros Hget. rewrite (run_dispatch zapi p _ r Hget).
  destruct (truthy (snd (first_match r))), (String.eqb (state p) "absent"), check_mode;
    try reflexivity.
  - now rewrite delete_action_run.
  - rewrite update_action_run.
    destruct (update_parameters _ _ _) as [parameters|]; [|reflexivity].
    now destruct (Nat.ltb 1 (length parameters)).
  - unfold when, bind, ret. rewrite add_action_run.
    now destruct (action_create zapi (add_parameters (desired p) [])).
Qed.

End RunFacts.

(** X4: whatever the mode, the parameters and the remote side's replies, a
    run issues the lookup first and after it at most one call, which is a
    create, an update or a delete; there is no second lookup and no
    retry. *)
Theorem run_issues_lookup_then_at_most_one_call (check_mode : bool) (zapi : ZabbixAPI)
    (p : params) :
  exists calls,
    snd (run check_mode zapi p) = Get (action_name p) :: calls
    /\ (length calls <= 1)%nat
    /\ forallb is_mutating calls = true.
Proof.
  destruct (action_get zapi (action_name p)) as [r|e] eqn:Hget.
  - rewrite (run_calls zapi p check_mode r Hget). eexists. split; [reflexivity|].
    destruct check_mode; [split; [simpl; lia|reflexivity]|].
    destruct (truthy (snd (first_match r))), (String.eqb (state p) "absent");
      try (split; [simpl; lia|reflexivity]).
    destruct (update_parameters _ _ _) as [parameters|]; [|split; [simpl; lia|reflexivity]].
    destruct (Nat.ltb 1 (length parameters)); split; simpl; auto; lia.
  - rewrite (run_lookup_raises zapi p check_mode e Hget). exists []. simpl. auto.
Qed.

(** X5: the call a run issues is fixed by the dispatch: when the lookup
    returned a true value it is a delete (state absent) or an update, never
    a create; when it returned a false value it is a create, issued only
    when the state is not absent. *)
Theorem dispatch_is_exclusive (check_mode : bool) (zapi : ZabbixAPI) (p : params)
    (r : list dict) (c : call) :
  action_get zapi (action_name p) = Ok r ->
  In c (mutating_calls (snd (run check_mode zapi p))) ->
  check_mode = false
  /\ if truthy (snd (first_match r)) then
       if String.eqb (state p) "absent" then c = Delete [snd (first_match r)]
       else exists parameters, c = Update parameters
     else
       String.eqb (state p) "absent" = false /\ c = Create (add_parameters (desired p) []).
Proof.
  intros Hget. rewrite (run_calls zapi p check_mode r Hget).
  destruct check_mode; [simpl; tauto|].
  destruct (truthy (snd (first_match r))), (String.eqb (state p) "absent"); simpl;
    try tauto.
  - intros [<-|[]]. auto.
  - destruct (update_parameters _ _ _) as [parameters|]; [|simpl; tauto].
    destruct (Nat.ltb 1 (length parameters)); simpl; [|tauto].
    intros [<-|[]]. eauto.
  - intros [<-|[]]. auto.
Qed.

Lemma dispatch_is_exclusive_witness :
  false = false /\ Delete [VStr "7"] = Delete [VStr "7"].
Proof.
  exact (dispatch_is_exclusive false (accepting [stored_action])
           (sample_params "active" "absent") [stored_action] (Delete [VStr "7"])
           eq_refl (or_introl eq_refl)).
Defined.

(** X6: the lookup counts as not found, i.e. returns a false value, exactly
    when the reply is empty or its first record has an 'actionid' that is
    false; the record is stored as [existing_data] exactly when the first
    record has an 'actionid'. *)
Theorem lookup_not_found_cases (r : list dict) :
  (truthy (snd (first_match r)) = false <->
   r = [] \/
   exists first rest actionid,
     r = first :: rest /\ dict_get "actionid" first = Some actionid /\ truthy actionid = false)
  /\ (forall existing,
        fst (first_match r) = Some existing <->
        exists rest, r = existing :: rest /\ dict_mem "actionid" existing = true).
Proof.
  split.
  - destruct r as [|first rest]; simpl.
    + split; auto.
    + destruct (dict_get "actionid" first) as [actionid|] eqn:Hid; simpl.
      * split.
        -- intros Hfalse. right. exists first, rest, actionid. auto.
        -- intros [Hnil|(first' & rest' & actionid' & [= <- <-] & Hid' & Hfalse)];
             [discriminate|]. congruence.
      * split; [discriminate|].
        intros [Hnil|(first' & rest' & actionid' & [= <- <-] & Hid' & _)];
          [discriminate|congruence].
  - intros existing. unfold dict_mem. destruct r as [|first rest]; simpl.
    + split; [discriminate|]. intros (rest' & Hnil & _). discriminate.
    + destruct (dict_get "actionid" first) as [actionid|] eqn:Hid; simpl.
      * split.
        -- intros [= <-]. exists rest. now rewrite Hid.
        -- intros (rest' & [= <- <-] & _). reflexivity.
      * split; [discriminate|].
        intros (rest' & [= <- <-] & Hmem). rewrite Hid in Hmem. discriminate.
Qed.

(** ** When an update is issued *)

Section UpdateFacts.

(** One turn of the loop of [update_action] on a stored record. *)
Lemma changed_fields_step (existing : dict) (item : string) (v : value)
    (rest parameters : dict) :
  changed_fields (Some existing) ((item, v) :: rest) parameters =
    changed_fields (Some existing) rest
      (if field_differs existing item v then dict_set item v parameters else parameters).
Proof.
  unfold field_differs. simpl.
  destruct (truthy v); simpl; [|reflexivity].
  destruct (dict_get item existing) as [old|]; [|reflexivity].
  now destruct (py_ne old v).
Qed.

(** For the dict [main] builds, the payload has a key besides 'actionid'
    exactly when one of the five fields differs. *)
Lemma update_parameters_grows (existing : dict) (action_id : value) (p : params) :
  exists parameters,
    update_parameters (Some existing) action_id (desired p) = Ok parameters /\
    Nat.ltb 1 (length parameters) =
      existsb (fun kv => field_differs existing (fst kv) (snd kv)) (desired p).
Proof.
  destruct (update_parameters_desired existing action_id p) as (ps & Hrun & _).
  exists ps. split; [exact Hrun|].
  unfold update_parameters, desired in Hrun.
  rewrite !changed_fields_step in Hrun.
  unfold desired. cbn [existsb fst snd].
  destruct (field_differs existing "name" _),
           (field_differs existing "status" _),
           (field_differs existing "esc_period" _),
           (field_differs existing "eventsource" _),
           (field_differs existing "operations" _);
    simpl in Hrun; injection Hrun as <-; reflexivity.
Qed.

End UpdateFacts.

(** X7: when the action is found, the state is not absent and the run is
    outside check mode, the run reports [changed=False] and issues no
    mutating call exactly when none of name, status, esc_period,
    eventsource, operations differs from the stored record (a field differs
    when its desired value is true, the record has the key and the values
    are unequal). *)
Theorem update_is_noop_iff_no_field_differs (zapi : ZabbixAPI) (p : params)
    (first : dict) (rest : list dict) (actionid : value) :
  action_get zapi (action_name p) = Ok (first :: rest) ->
  dict_get "actionid" first = Some actionid ->
  truthy actionid = true ->
  String.eqb (state p) "absent" = false ->
  (run false zapi p = (SysExit (ExitJson false None), [Get (action_name p)]) <->
   existsb (fun kv => field_differs first (fst kv) (snd kv)) (desired p) = false).
Proof.
  intros Hget Hid Htrue Hstate.
  assert (Hmatch : first_match (first :: rest) = (Some first, actionid))
    by (unfold first_match; now rewrite Hid).
  rewrite (run_dispatch zapi p _ _ Hget), Hmatch. cbn [fst snd].
  rewrite Htrue, Hstate, update_action_run.
  destruct (update_parameters_grows first actionid p) as (ps & -> & Hlen).
  rewrite Hlen.
  destruct (existsb _ (desired p)); split; try reflexivity; discriminate.
Qed.

Lemma update_is_noop_iff_no_field_differs_witness :
  run false (accepting [stored_action]) (sample_params "active" "present")
    = (SysExit (ExitJson false None), [Get "Exampleaction"]).
Proof.
  apply (proj2 (update_is_noop_iff_no_field_differs (accepting [stored_action])
                  (sample_params "active" "present") stored_action [] (VStr "7")
                  eq_refl eq_refl eq_refl eq_refl)).
  reflexivity.
Defined.

(** X8: [main] passes the event source as an integer.  When the stored
    record holds it as a string, as JSON replies do, a desired event source
    other than 0 always differs: outside check mode every run on a found
    action with state present issues an update call whose payload holds
    the event source, whatever the other fields are. *)
Theorem nonzero_eventsource_always_updates (zapi : ZabbixAPI) (p : params)
    (first : dict) (rest : list dict) (actionid : value) (stored : string) :
  action_get zapi (action_name p) = Ok (first :: rest) ->
  dict_get "actionid" first = Some actionid ->
  truthy actionid = true ->
  String.eqb (state p) "absent" = false ->
  dict_get "eventsource" first = Some (VStr stored) ->
  eventsource p <> 0 ->
  exists parameters,
    snd (run false zapi p) = [Get (action_name p); Update parameters]
    /\ dict_get "eventsource" parameters = Some (VInt (eventsource p)).
Proof.
  intros Hget Hid Htrue Hstate Hstored Hnonzero.
  assert (Hmatch : first_match (first :: rest) = (Some first, actionid))
    by (unfold first_match; now rewrite Hid).
  assert (Hdiff : field_differs first "eventsource" (VInt (eventsource p)) = true).
  { unfold field_differs. rewrite Hstored. simpl.
    apply Z.eqb_neq in Hnonzero. now rewrite Hnonzero. }
  rewrite (run_calls zapi p false _ Hget), Hmatch. cbn [fst snd].
  rewrite Htrue, Hstate.
  destruct (update_parameters_grows first actionid p) as (ps & Hrun & Hlen).
  destruct (update_parameters_desired first actionid p) as (ps' & Hrun' & Hps).
  rewrite Hrun in Hrun'. injection Hrun' as <-.
  rewrite Hrun, Hlen. exists ps. split.
  - unfold desired. cbn [existsb fst snd]. rewrite Hdiff.
    now rewrite !orb_true_r.
  - rewrite Hps. cbn [desired dict_get]. simpl. now rewrite Hdiff.
Qed.

Lemma nonzero_eventsource_always_updates_witness :
  exists parameters,
    snd (run false (accepting [stored_action])
           {| action_name := "Exampleaction"; status := "active"; state := "present";
              esc_period := "2m"; eventsource := 2; operations := [] |})
      = [Get "Exampleaction"; Update parameters]
    /\ dict_get "eventsource" parameters = Some (VInt 2).
Proof.
  apply (nonzero_eventsource_always_updates (accepting [stored_action])
           {| action_name := "Exampleaction"; status := "active"; state := "present";
              esc_period := "2m"; eventsource := 2; operations := [] |}
           stored_action [] (VStr "7") "0" eq_refl eq_refl eq_refl eq_refl eq_refl).
  discriminate.
Defined.

(** X9: the event source 0 and an empty list of operations are false
    values, so neither the create payload nor an update payload ever holds
    them; the status, '5' or '6', is always part of the create payload. *)
Theorem false_fields_are_never_sent (p : params) (existing : dict) (action_id : value) :
  (eventsource p = 0 ->
   dict_get "eventsource" (add_parameters (desired p) []) = None
   /\ forall parameters,
        update_parameters (Some existing) action_id (desired p) = Ok parameters ->
        dict_get "eventsource" parameters = None)
  /\ (operations p = [] ->
      dict_get "operations" (add_parameters (desired p) []) = None
      /\ forall parameters,
           update_parameters (Some existing) action_id (desired p) = Ok parameters ->
           dict_get "operations" parameters = None)
  /\ dict_get "status" (add_parameters (desired p) [])
     = Some (VStr (str_int (status_code (status p)))).
Proof.
  destruct (update_parameters_desired existing action_id p) as (ps & Hrun & Hps).
  split; [|split].
  - intros Hzero. split.
    + rewrite add_parameters_get by apply desired_wf.
      cbn [desired dict_get]. simpl. now rewrite Hzero.
    + intros parameters Hrun'. rewrite Hrun in Hrun'. injection Hrun' as <-.
      rewrite Hps. cbn [desired dict_get]. simpl.
      unfold field_differs. now rewrite Hzero.
  - intros Hempty. split.
    + rewrite add_parameters_get by apply desired_wf.
      cbn [desired dict_get]. simpl. now rewrite Hempty.
    + intros parameters Hrun'. rewrite Hrun in Hrun'. injection Hrun' as <-.
      rewrite Hps. cbn [desired dict_get]. simpl.
      unfold field_differs. now rewrite Hempty.
  - rewrite add_parameters_get by apply desired_wf.
    cbn [desired dict_get]. simpl.
    unfold status_code. now destruct (String.eqb (status p) "passive").
Qed.

(** ** The create payload of any dict *)

Section CreateFacts.

Lemma dict_set_fresh (k : string) (v : value) (d : dict) :
  dict_mem k d = false -> dict_set k v d = (d ++ [(k, v)])%list.
Proof.
  unfold dict_mem. induction d as [|[k0 v0] d IH]; simpl; intros Hfresh.
  - reflexivity.
  - destruct (String.eqb k k0); [discriminate|]. now rewrite IH.
Qed.

Lemma dict_mem_app (k : string) (d d' : dict) :
  dict_mem k (d ++ d')%list = dict_mem k d || dict_mem k d'.
Proof.
  unfold dict_mem. induction d as [|[k0 v0] d IH]; simpl.
  - reflexivity.
  - now destruct (String.eqb k k0).
Qed.

Lemma add_parameters_appends (items parameters : dict) :
  dict_wf items = true ->
  (forall k v, In (k, v) items -> dict_mem k parameters = false) ->
  add_parameters items parameters
    = (parameters ++ filter (fun kv => truthy (snd kv)) items)%list.
Proof.
  revert parameters.
  induction items as [|[k0 v0] items IH]; simpl; intros parameters Hwf Hfresh.
  - now rewrite app_nil_r.
  - apply andb_true_iff in Hwf as [Hk0 Hwf]. apply negb_true_iff in Hk0.
    destruct (truthy v0).
    + rewrite IH; [|assumption|].
      * rewrite dict_set_fresh by (apply (Hfresh k0 v0); now left).
        now rewrite <- app_assoc.
      * intros k v Hin.
        rewrite dict_set_fresh by (apply (Hfresh k0 v0); now left).
        rewrite dict_mem_app, (Hfresh k v) by now right. simpl.
        unfold dict_mem. simpl.
        destruct (String.eqb_spec k k0) as [->|Hne]; [|reflexivity].
        unfold dict_mem in Hk0. now rewrite (dict_wf_get items k0 v Hwf Hin) in Hk0.
    + apply IH; [assumption|]. intros k v Hin. apply (Hfresh k v). now right.
Qed.

End CreateFacts.

(** X10: for any dict [data] the payload [add_action] sends is [data]
    without the items whose value is false, in the order of [data]: no key
    is added, renamed or reordered and no value is changed. *)
Theorem create_payload_is_filtered_data (zapi : ZabbixAPI) (data : dict) (t : list call) :
  dict_wf data = true ->
  add_parameters data [] = filter (fun kv => truthy (snd kv)) data
  /\ snd (add_action false zapi data t)
     = (t ++ [Create (filter (fun kv => truthy (snd kv)) data)])%list.
Proof.
  intros Hwf.
  assert (Hpayload : add_parameters data [] = filter (fun kv => truthy (snd kv)) data).
  { rewrite add_parameters_appends; auto. }
  split; [exact Hpayload|].
  unfold add_action, try_except, bind, when, ret, remote, lift, exit_json, fail_json.
  rewrite Hpayload.
  destruct (action_create zapi _); simpl;
    destruct (getitem data "name"); simpl; try reflexivity;
    destruct (getitem data "status"); reflexivity.
Qed.

Lemma create_payload_is_filtered_data_witness :
  add_parameters desired_with_interface [] = desired_with_interface
  /\ snd (add_action false (accepting []) desired_with_interface [])
     = [Create desired_with_interface].
Proof.
  exact (create_payload_is_filtered_data (accepting []) desired_with_interface [] eq_refl).
Defined.

(** X11: outside check mode [add_action] needs the keys 'name' and
    'status' for its reports, which it reads after the create call.  On a
    dict without 'name' the run ends with KeyError 'name' once the call is
    issued, whatever the remote side replied; on a dict with 'name' and
    without 'status' an accepted create is reported as a failure. *)
Theorem add_action_needs_name_and_status (zapi : ZabbixAPI) (data : dict) (t : list call) :
  (dict_get "name" data = None ->
   add_action false zapi data t
     = (Raised (KeyError "name"), (t ++ [Create (add_parameters data [])])%list))
  /\ (forall name ids,
        dict_get "name" data = Some name ->
        dict_get "status" data = None ->
        action_create zapi (add_parameters data []) = Ok ids ->
        add_action false zapi data t
          = (SysExit (FailJson ("Failed to create action " ++ py_str name ++ ": 'status'")),
             (t ++ [Create (add_parameters data [])])%list)).
Proof.
  split.
  - intros Hname.
    unfold add_action, try_except, bind, when, ret, remote, lift, exit_json, fail_json, getitem.
    rewrite Hname. now destruct (action_create zapi _).
  - intros name ids Hname Hstatus Hcreate.
    unfold add_action, try_except, bind, when, ret, remote, lift, exit_json, fail_json, getitem.
    now rewrite Hname, Hstatus, Hcreate.
Qed.

Lemma add_action_needs_name_and_status_witness :
  add_action false (accepting []) [("name", VStr "Exampleaction"); ("esc_period", VStr "2m")] []
  = (SysExit (FailJson "Failed to create action Exampleaction: 'status'"),
     [Create [("name", VStr "Exampleaction"); ("esc_period", VStr "2m")]]).
Proof.
  exact (proj2 (add_action_needs_name_and_status (accepting [])
                  [("name", VStr "Exampleaction"); ("esc_period", VStr "2m")] [])
           (VStr "Exampleaction") _ eq_refl eq_refl eq_refl).
Defined.

(** ** [update_action] on a dict with 'host' *)

(** X12: on a dict that has the key 'host', [update_action] outside check
    mode reports as its messages say: an accepted update call is reported
    with [changed=True] and names the host and the identifier, a refused
    one with [fail_json] naming the host and the error text, and an
    exception raised while the payload is built is reported the same way
    before any call. *)
Theorem update_action_reports_with_host (zapi : ZabbixAPI) (existing_data : option dict)
    (action_id host : value) (data : dict) (t : list call) :
  dict_get "host" data = Some host ->
  (forall parameters,
      update_parameters existing_data action_id data = Ok parameters ->
      (1 < length parameters)%nat ->
      update_action false zapi existing_data action_id data t =
        (match action_update zapi parameters with
         | Ok _ =>
             SysExit (ExitJson true
               (Some ("Successfully updated action " ++ py_str host ++
                      " (" ++ py_str action_id ++ ")")))
         | Err e =>
             SysExit (FailJson ("Failed to update action " ++ py_str host ++ ": " ++ exn_str e))
         end, (t ++ [Update parameters])%list))
  /\ (forall e,
        update_parameters existing_data action_id data = Err e ->
        update_action false zapi existing_data action_id data t =
          (SysExit (FailJson ("Failed to update action " ++ py_str host ++ ": " ++ exn_str e)),
           t)).
Proof.
  intros Hhost. split.
  - intros parameters Hrun Hlen. apply Nat.ltb_lt in Hlen.
    unfold update_action, try_except, bind, when, ret, remote, lift, exit_json, fail_json,
      getitem.
    rewrite Hrun, Hlen, Hhost. now destruct (action_update zapi parameters).
  - intros e Hrun.
    unfold update_action, try_except, bind, when, ret, remote, lift, exit_json, fail_json,
      getitem.
    now rewrite Hrun, Hhost.
Qed.

Lemma update_action_reports_with_host_witness :
  update_action false (accepting [stored_with_interface]) (Some stored_with_interface)
    (VStr "7") (("host", VStr "zbx01") :: desired_with_interface) []
  = (SysExit (ExitJson true (Some "Successfully updated action zbx01 (7)")),
     [Update [("actionid", VStr "7");
              ("interface", VDict [("dns", VStr "zbx"); ("port", VStr "10052")])]]).
Proof.
  apply (proj1 (update_action_reports_with_host (accepting [stored_with_interface])
                  (Some stored_with_interface) (VStr "7") (VStr "zbx01")
                  (("host", VStr "zbx01") :: desired_with_interface) [] eq_refl)).
  - reflexivity.
  - simpl. lia.
Defined.

(** ** Merging the same interface twice *)

Section MergeFacts.

Lemma stringify_set (k : string) (v : value) (d : dict) :
  stringify (dict_set k v d) = dict_set k (VStr (py_str v)) (stringify d).
Proof.
  unfold stringify. induction d as [|[k0 v0] d IH]; simpl.
  - reflexivity.
  - destruct (String.eqb k k0); simpl; [reflexivity|]. now rewrite IH.
Qed.

Lemma stringify_update (d other : dict) :
  stringify (dict_update d other) = dict_update (stringify d) (stringify other).
Proof.
  unfold dict_update. revert d.
  induction other as [|[k v] other IH]; simpl; intros d.
  - reflexivity.
  - now rewrite IH, stringify_set.
Qed.

Lemma stringify_twice (d : dict) : stringify (stringify d) = stringify d.
Proof. apply stringify_strings, all_strings_stringify. Qed.

Lemma dict_mem_stringify (k : string) (d : dict) :
  dict_mem k (stringify d) = dict_mem k d.
Proof.
  unfold dict_mem. rewrite dict_get_stringify. now destruct (dict_get k d).
Qed.

Lemma dict_wf_stringify (d : dict) : dict_wf (stringify d) = dict_wf d.
Proof.
  induction d as [|[k v] d IH]; simpl.
  - reflexivity.
  - fold (stringify d). now rewrite dict_mem_stringify, IH.
Qed.

Lemma dict_wf_update (d other : dict) :
  dict_wf d = true -> dict_wf (dict_update d other) = true.
Proof.
  unfold dict_update. revert d.
  induction other as [|[k v] other IH]; simpl; intros d Hwf.
  - assumption.
  - apply IH. now apply dict_wf_set.
Qed.

(** A second update with the same items changes nothing. *)
Lemma dict_update_twice (d other : dict) :
  dict_wf other = true ->
  dict_update (dict_update d other) other = dict_update d other.
Proof.
  intros Hwf. apply dict_update_held. intros k v Hin.
  rewrite dict_get_update by assumption.
  now rewrite (dict_wf_get other k v Hwf Hin).
Qed.

End MergeFacts.

(** X13: the interface merge is idempotent.  When the merge of a desired
    interface [new] into the stored one was not empty and the remote side
    stores that result, the merge of the same [new] into the stored result
    is the empty dict: a second run has no interface to send. *)
Theorem interface_merge_is_idempotent (existing existing' : dict) (old new merged : dict) :
  old_interface_of (Some existing) = Ok (VDict old) ->
  dict_wf old = true ->
  dict_wf new = true ->
  compile_interface_params (Some existing) (VDict new) = Ok merged ->
  merged <> [] ->
  dict_get "interface" existing' = Some (VDict merged) ->
  compile_interface_params (Some existing') (VDict new) = Ok [].
Proof.
  intros Hold Hwf_old Hwf_new Hmerge Hne Hstored.
  rewrite (compile_interface_params_dicts _ old new Hold) in Hmerge.
  assert (Hm : merged = stringify (dict_update old new)).
  { destruct (py_eq _ (VDict old)); injection Hmerge as <-; [now contradiction Hne|reflexivity]. }
  assert (Hold' : old_interface_of (Some existing') = Ok (VDict merged)).
  { unfold old_interface_of. rewrite Hstored. simpl.
    destruct merged; [now contradiction Hne|reflexivity]. }
  rewrite (compile_interface_params_dicts _ merged new Hold').
  assert (Hsame : stringify (dict_update merged new) = merged).
  { rewrite stringify_update, Hm, stringify_twice, stringify_update.
    apply dict_update_twice. now rewrite dict_wf_stringify. }
  rewrite Hsame, py_eq_strings_refl; [reflexivity| |].
  - rewrite Hm, stringify_update. apply dict_wf_update. now rewrite dict_wf_stringify.
  - rewrite Hm. apply all_strings_stringify.
Qed.

Lemma interface_merge_is_idempotent_witness :
  compile_interface_params
    (Some [("actionid", VStr "7");
           ("interface", VDict [("dns", VStr "zbx"); ("port", VStr "10052")])])
    (VDict [("port", VInt 10052)]) = Ok [].
Proof.
  apply (interface_merge_is_idempotent stored_with_interface
           [("actionid", VStr "7");
            ("interface", VDict [("dns", VStr "zbx"); ("port", VStr "10052")])]
           [("dns", VStr "zbx"); ("port", VStr "10051")]
           [("port", VInt 10052)]
           [("dns", VStr "zbx"); ("port", VStr "10052")]
           eq_refl eq_refl eq_refl eq_refl).
  - discriminate.
  - reflexivity.
Defined.

(** ** Errors before and at the lookup *)

(** X14: when the import of [zabbix_api] failed, [main] ends with
    [fail_json] before it connects; when the connection or the login
    raises, it ends with [fail_json] whose message holds the error text.
    In both cases no call to [zapi.action] is issued, whatever the state
    and the mode; otherwise the run is the reconciliation on the opened
    session. *)
Theorem module_main_fails_before_any_call (connect : result ZabbixAPI) (check_mode : bool)
    (p : params) (zbx : ZabbixAPI) (e : exn) :
  module_main false connect check_mode p []
    = (SysExit (FailJson
         "Missing requried zabbix-api module (check docs or install with: pip install zabbix-api)"),
       [])
  /\ module_main true (Err e) check_mode p []
     = (SysExit (FailJson ("Failed to connect to Zabbix server: " ++ exn_str e)), [])
  /\ module_main true (Ok zbx) check_mode p [] = run check_mode zbx p.
Proof. repeat split. Qed.

(** X15: [action_exists] has no handler, so a lookup that raises ends the
    run with that exception: nothing is reported through [exit_json] or
    [fail_json] and no mutating call is issued, in check mode or not. *)
Theorem lookup_error_is_not_handled (check_mode : bool) (zapi : ZabbixAPI) (p : params)
    (e : exn) :
  action_get zapi (action_name p) = Err e ->
  run check_mode zapi p = (Raised e, [Get (action_name p)])
  /\ mutating_calls (snd (run check_mode zapi p)) = [].
Proof.
  intros Hget.
  assert (Hrun : run check_mode zapi p = (Raised e, [Get (action_name p)])).
  { unfold run, main, action_exists, bind, remote. now rewrite Hget. }
  split; [exact Hrun|]. now rewrite Hrun.
Qed.

Lemma lookup_error_is_not_handled_witness :
  run true (failing_lookup "Session terminated") (sample_params "active" "absent")
  = (Raised (ZabbixAPIException "Session terminated"), [Get "Exampleaction"]).
Proof.
  exact (proj1 (lookup_error_is_not_handled true (failing_lookup "Session terminated")
                  (sample_params "active" "absent")
                  (ZabbixAPIException "Session terminated") eq_refl)).
Defined.

(** ** What the run depends on *)

(** X16: only the first record of the reply counts.  When it has an
    'actionid', two remote sides that answer the lookup with the same first
    record and reply alike to the mutating calls give the same run,
    whatever records follow. *)
Theorem later_records_are_ignored (check_mode : bool) (zapi zapi' : ZabbixAPI) (p : params)
    (first : dict) (rest rest' : list dict) :
  action_get zapi (action_name p) = Ok (first :: rest) ->
  action_get zapi' (action_name p) = Ok (first :: rest') ->
  dict_mem "actionid" first = true ->
  action_create zapi = action_create zapi' ->
  action_update zapi = action_update zapi' ->
  action_delete zapi = action_delete zapi' ->
  run check_mode zapi p = run check_mode zapi' p.
Proof.
  intros Hget Hget' Hmem Hcreate Hupdate Hdelete.
  rewrite (run_dispatch zapi p _ _ Hget), (run_dispatch zapi' p _ _ Hget').
  unfold first_match, dict_mem in *.
  destruct (dict_get "actionid" first) as [actionid|]; [|discriminate].
  cbn [fst snd].
  unfold delete_action, update_action, add_action, try_except, bind, when, ret, remote, lift,
    exit_json, fail_json.
  now rewrite Hcreate, Hupdate, Hdelete.
Qed.

Lemma later_records_are_ignored_witness :
  run false (accepting [stored_action]) (sample_params "passive" "absent")
  = run false (accepting [stored_action; stored_with_interface; record_without_id])
      (sample_params "passive" "absent").
Proof.
  exact (later_records_are_ignored false (accepting [stored_action])
           (accepting [stored_action; stored_with_interface; record_without_id])
           (sample_params "passive" "absent") stored_action []
           [stored_with_interface; record_without_id]
           eq_refl eq_refl eq_refl eq_refl eq_refl eq_refl).
Defined.

(** X17: outside check mode an accepted create is reported with
    [changed=True] and a message that holds the action's name and its
    status code, an accepted delete with [changed=True] and a message that
    holds the action's name. *)
Theorem accepted_create_and_delete_are_reported (zapi : ZabbixAPI) (p : params)
    (r : list dict) :
  action_get zapi (action_name p) = Ok r ->
  (truthy (snd (first_match r)) = false ->
   String.eqb (state p) "absent" = false ->
   forall ids,
     action_create zapi (add_parameters (desired p) []) = Ok ids ->
     fst (run false zapi p)
       = SysExit (ExitJson true
           (Some ("Successfully added action " ++ action_name p ++ " (" ++
                  (if String.eqb (status p) "passive" then "6" else "5") ++ ")"))))
  /\ (truthy (snd (first_match r)) = true ->
      String.eqb (state p) "absent" = true ->
      forall ack,
        action_delete zapi [snd (first_match r)] = Ok ack ->
        fst (run false zapi p)
          = SysExit (ExitJson true (Some ("Successfully deleted action " ++ action_name p)))).
Proof.
  intros Hget. rewrite (run_dispatch zapi p _ r Hget). split.
  - intros -> -> ids Hcreate. unfold when, bind, ret.
    rewrite add_action_run, Hcreate. unfold status_code.
    now destruct (String.eqb (status p) "passive").
  - intros -> -> ack Hdelete. now rewrite delete_action_run, Hdelete.
Qed.

Lemma accepted_create_and_delete_are_reported_witness :
  fst (run false (accepting []) (sample_params "passive" "present"))
  = SysExit (ExitJson true (Some "Successfully added action Exampleaction (6)")).
Proof.
  exact (proj1 (accepted_create_and_delete_are_reported (accepting [])
                  (sample_params "passive" "present") [] eq_refl)
           eq_refl eq_refl _ eq_refl).
Defined.

(** ** The update payload of any dict *)

(** X18: for any dict [data] without the key 'interface' and any stored
    record, [update_action] builds a payload without raising; a key of
    [data] is in it with its desired value exactly when that value is
    true, the record has the key and the values are unequal, and
    'actionid' holds the identifier unless [data] itself has a differing
    'actionid', which then replaces it. *)
Theorem update_payload_of_any_dict (existing : dict) (action_id : value) (data : dict) :
  dict_wf data = true ->
  dict_get "interface" data = None ->
  exists parameters,
    update_parameters (Some existing) action_id data = Ok parameters
    /\ dict_wf parameters = true
    /\ forall k,
         dict_get k parameters =
           match dict_get k data with
           | Some v =>
               if field_differs existing k v then Some v
               else if String.eqb k "actionid" then Some action_id else None
           | None => if String.eqb k "actionid" then Some action_id else None
           end.
Proof.
  intros Hwf Hno.
  destruct (changed_fields_get existing data Hwf [("actionid", action_id)])
    as (ps & Hrun & Hps_wf & Hps).
  exists ps. split; [|split; [now apply Hps_wf|exact Hps]].
  unfold update_parameters. rewrite Hrun. unfold rbind.
  assert (Hmem : dict_mem "interface" ps = false).
  { unfold dict_mem. rewrite Hps, Hno. reflexivity. }
  now rewrite Hmem, Hno.
Qed.

Lemma update_payload_of_any_dict_witness :
  exists parameters,
    update_parameters (Some stored_action) (VStr "7")
      [("name", VStr "Renamed"); ("esc_period", VStr "2m"); ("actionid", VStr "9")]
      = Ok parameters
    /\ dict_wf parameters = true
    /\ dict_get "name" parameters = Some (VStr "Renamed")
    /\ dict_get "esc_period" parameters = None
    /\ dict_get "actionid" parameters = Some (VStr "9").
Proof.
  destruct (update_payload_of_any_dict stored_action (VStr "7")
              [("name", VStr "Renamed"); ("esc_period", VStr "2m"); ("actionid", VStr "9")]
              eq_refl eq_refl) as (parameters & Hrun & Hwf & Hget).
  exists parameters. split; [exact Hrun|]. split; [exact Hwf|].
  split; [exact (Hget "name")|]. split; [exact (Hget "esc_period")|exact (Hget "actionid")].
Defined.

(** ** A reply whose first record has no 'actionid' *)

(** X19: when the first record of the reply has no 'actionid', the lookup
    stores no record and returns the reply, a true value.  Outside check
    mode the run then never creates the action: with state absent it
    issues a delete call with the whole reply as identifier, and with any
    other state [update_action] raises on the desired status before any
    call and the run ends with KeyError 'host'. *)
Theorem reply_without_actionid_is_never_created (zapi : ZabbixAPI) (p : params)
    (first : dict) (rest : list dict) :
  action_get zapi (action_name p) = Ok (first :: rest) ->
  dict_get "actionid" first = None ->
  (String.eqb (state p) "absent" = true ->
   snd (run false zapi p)
     = [Get (action_name p); Delete [VList (map VDict (first :: rest))]])
  /\ (String.eqb (state p) "absent" = false ->
      run false zapi p = (Raised (KeyError "host"), [Get (action_name p)])).
Proof.
  intros Hget Hid.
  assert (Hmatch : first_match (first :: rest) = (None, VList (map VDict (first :: rest))))
    by (unfold first_match; now rewrite Hid).
  split; intros Hstate.
  - rewrite (run_calls zapi p false _ Hget), Hmatch. cbn [fst snd].
    now rewrite Hstate.
  - rewrite (run_dispatch zapi p _ _ Hget), Hmatch. cbn [fst snd].
    cbn [truthy map]. rewrite Hstate, update_action_run.
    unfold update_parameters, desired. cbn [changed_fields truthy].
    unfold status_code.
    destruct (String.eqb (action_name p) EmptyString),
             (String.eqb (status p) "passive"); reflexivity.
Qed.

Lemma reply_without_actionid_is_never_created_witness :
  run false (accepting [record_without_id; stored_action]) (sample_params "passive" "present")
  = (Raised (KeyError "host"), [Get "Exampleaction"]).
Proof.
  exact (proj2 (reply_without_actionid_is_never_created
                  (accepting [record_without_id; stored_action])
                  (sample_params "passive" "present") record_without_id [stored_action]
                  eq_refl eq_refl) eq_refl).
Defined.
